(** * Session/profile context provider (src/context/AuthProvider.tsx)

    A shallow embedding of the [AuthProvider] component: its five state
    cells, the two asynchronous operations [getProfile] and [signOut], the
    mount effect and the auth-state-change handler.

    Asynchronous functions are embedded as resumptions: a program runs its
    synchronous statements, and at an [await] it suspends with a request to
    an external collaborator (backend SDK, local storage) and a
    continuation.  The provider is then a transition system whose events are
    the calls made by consumers, the notifications pushed by the backend and
    the settlement of pending requests; any interleaving of those is a run.

    A state of the provider holds the cells at the end of a synchronous
    run, which is what a consumer sees when the host batches the setter calls
    of one run into one render.  The history keeps every setter call in
    order, so the cells after each single call of a run can be read off it as
    well, for a host that renders after every call.  [console.log] calls have
    no effect on the provider and are left out. *)

From Stdlib Require Import String List Bool ZArith Lia.
Import ListNotations.
Open Scope string_scope.
Open Scope list_scope.

(** ** Data model *)

(** [Session] of the backend SDK, reduced to what the provider reads: the
    user (the code guards every access with [?.]) and a token that tells two
    sessions of the same user apart. *)
Record User := { id : string }.

Record Session := { user : option User; access_token : string }.

(** The five [useState] cells, with the initial values of lines 29-33. *)
Record View := {
  session : option Session;
  isLoading : bool;
  username : string;
  website : string;
  avatarUrl : string
}.

Definition initial_view : View :=
  {| session := None; isLoading := true;
     username := ""; website := ""; avatarUrl := "" |}.

(** A value that reaches a [catch] clause: either an instance of [Error]
    (with its [message]) or any other value. *)
Inductive Thrown :=
| ErrorInstance (message : string)
| NotAnError (repr : string).

(** [class AuthError extends Error] of the auth client: the value found in
    the [error] field of the sign-out reply. *)
Record AuthError := { auth_message : string }.

Record SignOutReply := { signout_error : option AuthError }.

(** A row of the [profiles] table restricted to the selected columns. *)
Record ProfileRow := {
  row_username : string;
  row_website : string;
  avatar_url : string
}.

(** Reply of [.from('profiles').select(..).eq(..).single()].  The [error]
    field holds the body of the failed response; whether that object is an
    instance of [Error] is up to the SDK, so both cases are kept. *)
Record ProfileReply := {
  data : option ProfileRow;
  error : option Thrown;
  status : Z
}.

Inductive Settled (A : Type) :=
| Fulfilled (v : A)
| Rejected (e : Thrown).
Arguments Fulfilled {A} v.
Arguments Rejected {A} e.

(** Requests that suspend an asynchronous function. *)
Inductive Request :=
| AsyncStorage_getAllKeys
| AsyncStorage_multiRemove (keys : list string)
| auth_signOut
| auth_getSession
| profiles_select (eq_id : string).

Definition Reply (r : Request) : Type :=
  match r with
  | AsyncStorage_getAllKeys => list string
  | AsyncStorage_multiRemove _ => unit
  | auth_signOut => SignOutReply
  | auth_getSession => option Session
  | profiles_select _ => ProfileReply
  end.

(** Router calls.  The source calls [router.navigate]; [router.replace]
    is the method named by its comment. *)
Inductive RouterMethod := navigate | replace.

Record Href := { pathname : string; params : list (string * string) }.

(** Synchronous effects. *)
Inductive Action :=
| setSession (s : option Session)
| setIsLoading (b : bool)
| setUsername (s : string)
| setWebsite (s : string)
| setAvatarUrl (s : string)
| Alert_alert (title : string) (message : option string)
| router_call (m : RouterMethod) (href : Href)
| subscribe
| unsubscribe.

(** ** Programs *)

Inductive Completion :=
| Normal
| Return
| Throw (v : Thrown).

Inductive Prog :=
| Done (c : Completion)
| Act (a : Action) (k : Prog)
| Await (r : Request) (k : Settled (Reply r) -> Prog)
| Spawn (child : Prog) (k : Prog).

Definition skip : Prog := Done Normal.
Definition act (a : Action) : Prog := Act a skip.

(** [await e] inside an asynchronous function: a rejection is thrown at the
    point of the [await]. *)
Definition await (r : Request) (k : Reply r -> Prog) : Prog :=
  Await r (fun x => match x with
                    | Fulfilled v => k v
                    | Rejected e => Done (Throw e)
                    end).

(** Calling an asynchronous function without awaiting it. *)
Definition call_async (body : Prog) : Prog := Spawn body skip.

(** Statement sequencing: the second statement runs only after a normal
    completion of the first. *)
Fixpoint seq (p q : Prog) : Prog :=
  match p with
  | Done Normal => q
  | Done c => Done c
  | Act a k => Act a (seq k q)
  | Await r k => Await r (fun x => seq (k x) q)
  | Spawn child k => Spawn child (seq k q)
  end.

Notation "p ;; q" := (seq p q) (at level 61, right associativity).

(** [try { p } catch (e) { h e }]. *)
Fixpoint try_catch (p : Prog) (h : Thrown -> Prog) : Prog :=
  match p with
  | Done (Throw v) => h v
  | Done c => Done c
  | Act a k => Act a (try_catch k h)
  | Await r k => Await r (fun x => try_catch (k x) h)
  | Spawn child k => Spawn child (try_catch k h)
  end.

(** [try { p } finally { f }]: [f] runs after every completion of [p], which
    is kept unless [f] itself completes abruptly. *)
Fixpoint try_finally (p f : Prog) : Prog :=
  match p with
  | Done c => f ;; Done c
  | Act a k => Act a (try_finally k f)
  | Await r k => Await r (fun x => try_finally (k x) f)
  | Spawn child k => Spawn child (try_finally k f)
  end.

(** ** JavaScript tests used by the source *)

(** The value of [userSession?.user?.id] when it is truthy. *)
Definition user_id (userSession : option Session) : option string :=
  match userSession with
  | Some s =>
      match user s with
      | Some u => if (id u =? "")%string then None else Some (id u)
      | None => None
      end
  | None => None
  end.

(** Truthiness of [newSession?.user]. *)
Definition has_user (s : option Session) : bool :=
  match s with
  | Some s' => match user s' with Some _ => true | None => false end
  | None => false
  end.

(** [a || b] on nullable objects. *)
Definition or_else {A} (a b : option A) : option A :=
  match a with Some _ => a | None => b end.

Definition startsWith (key p : string) : bool := String.prefix p key.

Definition includes (key sub : string) : bool :=
  match String.index 0 sub key with Some _ => true | None => false end.

(** ** The operations of the provider *)

(** [getProfile] (lines 35-74).  [session] is the state cell as captured by
    the closure, [currentSession] the optional argument. *)
Definition getProfile (session currentSession : option Session) : Prog :=
  try_finally
    (try_catch
       (act (setIsLoading true) ;;
        let userSession := or_else currentSession session in
        match user_id userSession with
        | None => Done Return
        | Some uid =>
            await (profiles_select uid) (fun reply =>
              (match error reply with
               | Some e => if (status reply =? 406)%Z then skip else Done (Throw e)
               | None => skip
               end) ;;
              (match data reply with
               | Some d =>
                   act (setUsername (row_username d)) ;;
                   act (setWebsite (row_website d)) ;;
                   act (setAvatarUrl (avatar_url d))
               | None => skip
               end))
        end)
       (fun e =>
          match e with
          | ErrorInstance m => act (Alert_alert m None)
          | NotAnError _ => skip
          end))
    (act (setIsLoading false)).

(** The keys selected for removal by [signOut] (lines 83-85). *)
Definition authKeys (keys : list string) : list string :=
  filter (fun key => startsWith key "supabase.auth" || includes key "session")
         keys.

(** [signOut] (lines 77-122). *)
Definition signOut : Prog :=
  try_finally
    (try_catch
       (act (setIsLoading true) ;;
        await AsyncStorage_getAllKeys (fun keys =>
          (if (0 <? length (authKeys keys))%nat
           then await (AsyncStorage_multiRemove (authKeys keys)) (fun _ => skip)
           else skip) ;;
          await auth_signOut (fun reply =>
            (match signout_error reply with
             | Some e => Done (Throw (ErrorInstance (auth_message e)))
             | None => skip
             end) ;;
            act (setSession None) ;;
            act (setUsername "") ;;
            act (setWebsite "") ;;
            act (setAvatarUrl "") ;;
            act (router_call navigate
                   {| pathname := "/(auth)/sign-in"; params := [] |}))))
       (fun e =>
          match e with
          | ErrorInstance m => act (Alert_alert "Sign Out Error" (Some m))
          | NotAnError _ =>
              act (Alert_alert "Sign Out Error"
                     (Some "An unknown error occurred"))
          end))
    (act (setIsLoading false)).

(** The handler registered with [supabase.auth.onAuthStateChange] (lines
    143-157).  It lives in the closure of the mount effect, where the
    [session] cell is the initial [null]. *)
Definition onAuthStateChange (newSession : option Session) : Prog :=
  (match newSession with
   | None =>
       act (setUsername "") ;; act (setWebsite "") ;; act (setAvatarUrl "")
   | Some _ => skip
   end) ;;
  act (setSession newSession) ;;
  (if has_user newSession
   then call_async (getProfile None newSession)
   else skip).

(** The callback given to [supabase.auth.getSession().then] (lines
    133-140). *)
Definition onInitialSession (initialSession : option Session) : Prog :=
  (if has_user initialSession
   then act (setSession initialSession) ;;
        call_async (getProfile None initialSession)
   else skip) ;;
  act (setIsLoading false).

(** The body of the mount effect (lines 124-157) and its cleanup. *)
Definition authEffect : Prog :=
  act (setUsername "") ;;
  act (setWebsite "") ;;
  act (setAvatarUrl "") ;;
  call_async (await auth_getSession onInitialSession) ;;
  act subscribe.

Definition authEffect_cleanup : Prog := act unsubscribe.

(** [refreshProfile: () => getProfile()] of the context value: no
    argument, the closure's [session] is the rendered state cell. *)
Definition refreshProfile (rendered : View) : Prog :=
  getProfile (session rendered) None.

(** ** The provider as a transition system *)

(** A suspended asynchronous function: the request it waits for and what it
    does once the request settles. *)
Record Task := {
  request : Request;
  continuation : Settled (Reply request) -> Prog
}.

(** What the provider has done so far, in order. *)
Inductive Entry :=
| Did (a : Action)
| Asked (r : Request).

Record Sys := {
  view : View;
  subscribed : bool;
  history : list Entry;
  pending : list Task
}.

(** The provider before its first effect. *)
Definition initial_sys : Sys :=
  {| view := initial_view; subscribed := false; history := []; pending := [] |}.

(** The state setters. *)
Definition update (a : Action) (v : View) : View :=
  match a with
  | setSession s =>
      {| session := s; isLoading := isLoading v; username := username v;
         website := website v; avatarUrl := avatarUrl v |}
  | setIsLoading b =>
      {| session := session v; isLoading := b; username := username v;
         website := website v; avatarUrl := avatarUrl v |}
  | setUsername s =>
      {| session := session v; isLoading := isLoading v; username := s;
         website := website v; avatarUrl := avatarUrl v |}
  | setWebsite s =>
      {| session := session v; isLoading := isLoading v; username := username v;
         website := s; avatarUrl := avatarUrl v |}
  | setAvatarUrl s =>
      {| session := session v; isLoading := isLoading v; username := username v;
         website := website v; avatarUrl := s |}
  | _ => v
  end.

Definition perform (a : Action) (st : Sys) : Sys :=
  {| view := update a (view st);
     subscribed := match a with
                   | subscribe => true
                   | unsubscribe => false
                   | _ => subscribed st
                   end;
     history := history st ++ [Did a];
     pending := pending st |}.

Definition suspend (t : Task) (st : Sys) : Sys :=
  {| view := view st;
     subscribed := subscribed st;
     history := history st ++ [Asked (request t)];
     pending := pending st ++ [t] |}.

(** One synchronous run: effects are performed in order until the program
    completes or suspends; a spawned call runs up to its own first [await]
    and then the caller goes on. *)
Fixpoint run (p : Prog) (st : Sys) : Sys :=
  match p with
  | Done _ => st
  | Act a k => run k (perform a st)
  | Await r k => suspend {| request := r; continuation := k |} st
  | Spawn child k => run k (run child st)
  end.

(** Settlements delivered by the collaborators. *)
Inductive Answer :=
| keys_settled (x : Settled (list string))
| removal_settled (x : Settled unit)
| signOut_settled (x : Settled SignOutReply)
| session_settled (x : Settled (option Session))
| profile_settled (x : Settled ProfileReply).

Definition answer_for (r : Request) (a : Answer) : option (Settled (Reply r)) :=
  match r return option (Settled (Reply r)) with
  | AsyncStorage_getAllKeys =>
      match a with keys_settled x => Some x | _ => None end
  | AsyncStorage_multiRemove _ =>
      match a with removal_settled x => Some x | _ => None end
  | auth_signOut =>
      match a with signOut_settled x => Some x | _ => None end
  | auth_getSession =>
      match a with session_settled x => Some x | _ => None end
  | profiles_select _ =>
      match a with profile_settled x => Some x | _ => None end
  end.

(** Resuming a task with the settlement of its request. *)
Definition resume (t : Task) (a : Answer) (st : Sys) : option Sys :=
  match answer_for (request t) a with
  | Some x => Some (run (continuation t x) st)
  | None => None
  end.

(** A settled task leaves the pending list. *)
Fixpoint remove_nth {A} (n : nat) (l : list A) : list A :=
  match l, n with
  | [], _ => []
  | _ :: l', O => l'
  | x :: l', S n' => x :: remove_nth n' l'
  end.

Definition drop_task (n : nat) (st : Sys) : Sys :=
  {| view := view st; subscribed := subscribed st; history := history st;
     pending := remove_nth n (pending st) |}.

(** Events: the mount effect and its cleanup, a notification of the backend,
    the two calls offered to consumers, and the settlement of the [n]-th
    pending request. *)
Inductive Event :=
| Mount
| Unmount
| AuthStateChange (newSession : option Session)
| RefreshProfile
| SignOut
| Settle (n : nat) (a : Answer).

(** One step of the provider; [None] when the event cannot occur. *)
Definition step (st : Sys) (e : Event) : option Sys :=
  match e with
  | Mount => Some (run authEffect st)
  | Unmount => Some (run authEffect_cleanup st)
  | AuthStateChange newSession =>
      if subscribed st then Some (run (onAuthStateChange newSession) st)
      else None
  | RefreshProfile => Some (run (refreshProfile (view st)) st)
  | SignOut => Some (run signOut st)
  | Settle n a =>
      match nth_error (pending st) n with
      | Some t => resume t a (drop_task n st)
      | None => None
      end
  end.

Fixpoint steps (st : Sys) (es : list Event) : option Sys :=
  match es with
  | [] => Some st
  | e :: es' =>
      match step st e with
      | Some st' => steps st' es'
      | None => None
      end
  end.

Definition reachable (st : Sys) : Prop :=
  exists es, steps initial_sys es = Some st.

(** The next suspension of a program itself; the calls it spawns suspend on
    their own. *)
Fixpoint suspension (p : Prog) : option Task :=
  match p with
  | Done _ => None
  | Act _ k => suspension k
  | Await r k => Some {| request := r; continuation := k |}
  | Spawn _ k => suspension k
  end.

(** Where a program is suspended after its first awaits were settled with
    the given answers, in order. *)
Fixpoint suspended_after (p : Prog) (answers : list Answer) : option Task :=
  match suspension p with
  | Some t =>
      match answers with
      | [] => Some t
      | a :: answers' =>
          match answer_for (request t) a with
          | Some x => suspended_after (continuation t x) answers'
          | None => None
          end
      end
  | None => None
  end.

(** [task_of p t]: some execution of [p] suspends as [t]. *)
Definition task_of (p : Prog) (t : Task) : Prop :=
  exists answers, suspended_after p answers = Some t.

(** ** Observations *)

(** The alerts shown, the router calls made and the profile queries issued
    so far, read off the history. *)
Definition alert_of (e : Entry) : list (string * option string) :=
  match e with
  | Did (Alert_alert title message) => [(title, message)]
  | _ => []
  end.

Definition router_call_of (e : Entry) : list (RouterMethod * Href) :=
  match e with
  | Did (router_call m href) => [(m, href)]
  | _ => []
  end.

Definition query_of (e : Entry) : list string :=
  match e with
  | Asked (profiles_select uid) => [uid]
  | _ => []
  end.

Definition alerts (st : Sys) : list (string * option string) :=
  flat_map alert_of (history st).

Definition router_calls (st : Sys) : list (RouterMethod * Href) :=
  flat_map router_call_of (history st).

Definition profile_queries (st : Sys) : list string :=
  flat_map query_of (history st).

(** The three profile fields. *)
Definition profile (v : View) : string * string * string :=
  (username v, website v, avatarUrl v).

Definition profile_empty (v : View) : bool :=
  ((username v =? "") && (website v =? "") && (avatarUrl v =? ""))%string.

(** Entries that write one of username, website, avatarUrl. *)
Definition writes_profile (e : Entry) : bool :=
  match e with
  | Did (setUsername _) | Did (setWebsite _) | Did (setAvatarUrl _) => true
  | _ => false
  end.

(** The argument of the router call of [signOut] (lines 105-106). *)
Definition sign_in_href : Href :=
  {| pathname := "/(auth)/sign-in"; params := [] |}.

(** A session with a user id is present. *)
Definition has_user_id (s : option Session) : bool :=
  match user_id s with Some _ => true | None => false end.

(** A profile query is in flight. *)
Definition is_profile_query (t : Task) : bool :=
  match request t with profiles_select _ => true | _ => false end.

Definition fetching (st : Sys) : bool := existsb is_profile_query (pending st).

(** The value that reaches the catch clause of [getProfile] once the query
    has settled: the rejection, or the error of a reply whose status is not
    406. *)
Definition raises (x : Settled ProfileReply) (e : Thrown) : Prop :=
  match x with
  | Rejected e' => e' = e
  | Fulfilled reply => error reply = Some e /\ status reply <> 406%Z
  end.

(** The answer that carries a settlement of a request. *)
Definition answer_of (r : Request) : Settled (Reply r) -> Answer :=
  match r with
  | AsyncStorage_getAllKeys => keys_settled
  | AsyncStorage_multiRemove _ => removal_settled
  | auth_signOut => signOut_settled
  | auth_getSession => session_settled
  | profiles_select _ => profile_settled
  end.

(** The rejection of a request with a thrown value. *)
Definition rejection (r : Request) (e : Thrown) : Answer :=
  match r with
  | AsyncStorage_getAllKeys => keys_settled (Rejected e)
  | AsyncStorage_multiRemove _ => removal_settled (Rejected e)
  | auth_signOut => signOut_settled (Rejected e)
  | auth_getSession => session_settled (Rejected e)
  | profiles_select _ => profile_settled (Rejected e)
  end.

(** The task at a position of the pending list. *)
Definition task_at (st : Sys) (n : nat) : Task :=
  nth n (pending st)
      {| request := AsyncStorage_getAllKeys; continuation := fun _ => skip |}.

(** The state after a list of events, for runs that are known to exist. *)
Definition run_from (st : Sys) (es : list Event) : Sys :=
  match steps st es with Some st' => st' | None => st end.

(** ** Runs that keep session and profile together *)

(** The task left by the mount effect: the initial session query. *)
Definition session_task : Task :=
  {| request := auth_getSession;
     continuation := fun x => match x with
                              | Fulfilled v => onInitialSession v
                              | Rejected e => Done (Throw e)
                              end |}.

(** The tasks the provider can leave pending. *)
Definition known_task (t : Task) : Prop :=
  (exists stored currentSession, task_of (getProfile stored currentSession) t)
  \/ task_of signOut t
  \/ task_of (await auth_getSession onInitialSession) t.

Definition tasks_known (st : Sys) : Prop := Forall known_task (pending st).

(** Events of a run without the race between session loss and profile
    fetch: every delivered session carries a user id, and the session is
    lost (null session-changed event, successful sign-out reply) only while
    no profile query is in flight. *)
Definition calm (st : Sys) (e : Event) : bool :=
  match e with
  | AuthStateChange None => negb (fetching st)
  | AuthStateChange (Some s) => has_user_id (Some s)
  | Settle _ (session_settled (Fulfilled (Some s))) => has_user_id (Some s)
  | Settle _ (signOut_settled (Fulfilled reply)) =>
      match signout_error reply with
      | None => negb (fetching st)
      | Some _ => true
      end
  | _ => true
  end.



(** What one step can do to the session, the profile and the queries in
    flight: keep the session, lose it, or store a delivered one. *)
Definition keeps_session (st st' : Sys) : Prop :=
  session (view st') = session (view st) /\
  (profile_empty (view st') = false ->
   profile_empty (view st) = false \/ fetching st = true) /\
  (fetching st' = true ->
   fetching st = true \/ has_user_id (session (view st)) = true).

Definition loses_session (st : Sys) (e : Event) (st' : Sys) : Prop :=
  session (view st') = None /\
  profile_empty (view st') = true /\
  (fetching st' = true -> fetching st = true) /\
  (calm st e = true -> fetching st = false).

Definition stores_session (st : Sys) (e : Event) (st' : Sys) : Prop :=
  exists s, session (view st') = Some s /\
            (calm st e = true -> has_user_id (Some s) = true).

(** ** The cells setter by setter *)









(** ** Sample data *)

(** Two users, their rows, some replies and some states of the provider. *)

Definition alice : Session :=
  {| user := Some {| id := "user-a" |}; access_token := "token-a" |}.

Definition bob : Session :=
  {| user := Some {| id := "user-b" |}; access_token := "token-b" |}.

Definition alice_row : ProfileRow :=
  {| row_username := "a"; row_website := "b"; avatar_url := "c" |}.

Definition bob_row : ProfileRow :=
  {| row_username := "b"; row_website := "https://b.example";
     avatar_url := "b.png" |}.

Definition found (row : ProfileRow) : ProfileReply :=
  {| data := Some row; error := None; status := 200 |}.

Definition not_found : ProfileReply :=
  {| data := None;
     error := Some (NotAnError "JSON object requested, multiple (or no) rows returned");
     status := 406 |}.

Definition server_error : ProfileReply :=
  {| data := None;
     error := Some (ErrorInstance "permission denied for table profiles");
     status := 403 |}.

(** A failed response whose error is the parsed body, not an [Error]. *)
Definition plain_error : ProfileReply :=
  {| data := None;
     error := Some (NotAnError "permission denied for table profiles");
     status := 403 |}.

(** The provider right after mounting, the initial session query pending. *)
Definition mounting : Sys := run_from initial_sys [Mount].

(** The provider after mounting with no stored session. *)
Definition signed_out : Sys :=
  run_from initial_sys [Mount; Settle 0 (session_settled (Fulfilled None))].

(** The provider after mounting with the session of [alice], her profile
    loaded. *)
Definition signed_in : Sys :=
  run_from initial_sys
    [Mount; Settle 0 (session_settled (Fulfilled (Some alice)));
     Settle 0 (profile_settled (Fulfilled (found alice_row)))].

(** The provider with the session of [alice] stored and her profile query in
    flight. *)
Definition fetching_alice : Sys :=
  run_from initial_sys
    [Mount; Settle 0 (session_settled (Fulfilled (Some alice)))].

(** [alice] refreshes her loaded profile. *)
Definition refreshing_alice : Sys := run_from signed_in [RefreshProfile].

(** The provider of [alice] during a sign-out, waiting for the backend. *)
Definition signing_out : Sys :=
  run_from signed_in
    [SignOut;
     Settle 0 (keys_settled (Fulfilled ["supabase.auth.token"; "theme"]));
     Settle 0 (removal_settled (Fulfilled tt))].


(** ** Further observations *)

(** The entries one synchronous run of a program adds to the history. *)
Fixpoint trace (p : Prog) : list Entry :=
  match p with
  | Done _ => []
  | Act a k => Did a :: trace k
  | Await r _ => [Asked r]
  | Spawn child k => trace child ++ trace k
  end.

(** An asynchronous function whose promise is never rejected: no execution
    of it completes by throwing. *)
Fixpoint never_rejects (p : Prog) : Prop :=
  match p with
  | Done (Throw _) => False
  | Done _ => True
  | Act _ k => never_rejects k
  | Await _ k => forall x, never_rejects (k x)
  | Spawn _ k => never_rejects k
  end.

(** The user ids carried by a list of sessions. *)
Definition user_ids (sessions : list Session) : list string :=
  flat_map (fun s => match user_id (Some s) with
                     | Some uid => [uid]
                     | None => []
                     end) sessions.

(** What the operations of the provider (everything but the mount effect and
    its cleanup) may add to the history. *)
Definition operation_entry (e : Entry) : Prop :=
  match e with
  | Did subscribe | Did unsubscribe | Asked auth_getSession => False
  | Did (router_call m href) => m = navigate /\ href = sign_in_href
  | Did (Alert_alert title message) =>
      message = None \/ title = "Sign Out Error"
  | Asked (profiles_select uid) => uid <> ""
  | _ => True
  end.

(** What the provider as a whole may add to the history. *)
Definition provider_entry (e : Entry) : Prop :=
  operation_entry e \/
  e = Asked auth_getSession \/ e = Did subscribe \/ e = Did unsubscribe.

(** The subscription flag after a list of history entries. *)
Definition subscription_after (l : list Entry) (b : bool) : bool :=
  fold_left (fun b e => match e with
                        | Did subscribe => true
                        | Did unsubscribe => false
                        | _ => b
                        end) l b.

(** Whether the provider is mounted after a list of events. *)
Definition mounted_after (es : list Event) (b : bool) : bool :=
  fold_left (fun b e => match e with
                        | Mount => true
                        | Unmount => false
                        | _ => b
                        end) es b.

(** ** Further sample data *)

(** Three notifications: [alice], [bob], and [alice] again. *)
Definition three_sessions : list Session := [alice; bob; alice].

(** The provider of [alice] after a successful sign-out. *)
Definition after_sign_out : Sys :=
  run_from signing_out
    [Settle 0 (signOut_settled (Fulfilled {| signout_error := None |}))].

(** The events that lead to [after_sign_out]. *)
Definition sign_in_then_out : list Event :=
  [Mount; Settle 0 (session_settled (Fulfilled (Some alice)));
   Settle 0 (profile_settled (Fulfilled (found alice_row)));
   SignOut;
   Settle 0 (keys_settled (Fulfilled ["supabase.auth.token"; "theme"]));
   Settle 0 (removal_settled (Fulfilled tt));
   Settle 0 (signOut_settled (Fulfilled {| signout_error := None |}))].

(** A failed query followed by a failed sign-out. *)
Definition two_failures : list Event :=
  [Mount; Settle 0 (session_settled (Fulfilled (Some alice)));
   Settle 0 (profile_settled (Fulfilled server_error));
   SignOut;
   Settle 0 (keys_settled (Rejected (ErrorInstance "disk")))].

(** A reply with status 406 that still carries a row. *)
Definition not_found_with_row : ProfileReply :=
  {| data := Some bob_row;
     error := Some (NotAnError "multiple (or no) rows returned");
     status := 406 |}.

(** ** Tactics *)

(** Reads the observations off a state built by [perform] and [suspend]. *)
Ltac observe :=
  unfold alerts, router_calls, profile_queries, profile; cbn;
  rewrite <- ?app_assoc; cbn;
  rewrite ?flat_map_app; cbn; rewrite ?app_nil_r.

(** Follows a program along a path of answers: every stuck test in the
    hypothesis is split until the hypothesis names a task or is absurd. *)
Ltac explore H :=
  cbn in H;
  lazymatch type of H with
  | None = Some _ => discriminate H
  | Some _ = Some _ => idtac
  | _ =>
      first
        [ match type of H with
          | context [authKeys ?ks] =>
              let E := fresh "Hkeys" in destruct (authKeys ks) eqn:E
          | context [user_id ?s] =>
              let E := fresh "Huid" in
              let u := fresh "uid" in destruct (user_id s) as [u|] eqn:E
          | context [match ?v with _ => _ end] => is_var v; destruct v
          | context [match ?f ?v with _ => _ end] => is_var v; destruct v
          | context [if ?b then _ else _] => destruct b
          | suspended_after _ ?l = _ => is_var l; destruct l
          end; explore H
        | idtac ]
  end.

(** Turns a hypothesis [task_of (getProfile ..) t] into the task itself. *)
Ltac getProfile_task Ht :=
  let answers := fresh "answers" in
  let H := fresh "Hpath" in
  destruct Ht as [answers H]; unfold getProfile in H; explore H;
  injection H as <-.

(** Turns a hypothesis [task_of signOut t] into the tasks themselves: the
    key listing, the key removal, and the backend call reached with or
    without a removal. *)
Ltac signOut_task Ht :=
  let answers := fresh "answers" in
  let H := fresh "Hpath" in
  destruct Ht as [answers H]; unfold signOut in H; explore H;
  injection H as <-.

(** * Properties *)

(** ** Auxiliary facts *)

Lemma perform_last a st0 st rest :
  history st0 = history st ++ rest ->
  history (perform a st0) = history st ++ rest ++ [Did a].
Proof. intros H. cbn. rewrite H, app_assoc. reflexivity. Qed.

Lemma suspended_after_nil p : suspended_after p [] = suspension p.
Proof. cbn. destruct (suspension p); reflexivity. Qed.

(** [getProfile] suspends at most once: at the profile query for the user id
    of the effective session. *)
Lemma getProfile_task_inv stored currentSession t :
  task_of (getProfile stored currentSession) t ->
  exists uid,
    user_id (or_else currentSession stored) = Some uid /\
    suspension (getProfile stored currentSession) = Some t /\
    request t = profiles_select uid.
Proof.
  intros [answers H]. unfold getProfile in *.
  destruct (user_id (or_else currentSession stored)) as [uid|]; cbn in H.
  - exists uid. destruct answers as [|a answers].
    + cbn in *. injection H as <-. auto.
    + exfalso. explore H.
  - destruct answers; discriminate.
Qed.

(** A profile query that comes back with a row and no error overwrites the
    three profile fields, whatever they held. *)
Lemma getProfile_row stored currentSession t st n reply row :
  task_of (getProfile stored currentSession) t ->
  nth_error (pending st) n = Some t ->
  error reply = None -> data reply = Some row ->
  exists st',
    step st (Settle n (profile_settled (Fulfilled reply))) = Some st' /\
    username (view st') = row_username row /\
    website (view st') = row_website row /\
    avatarUrl (view st') = avatar_url row /\
    session (view st') = session (view st).
Proof.
  intros Ht Hn He Hd. getProfile_task Ht.
  cbn. rewrite Hn. unfold resume. cbn.
  destruct reply as [d e s]; cbn in *; subst.
  eexists; split; [reflexivity|]. cbn. auto.
Qed.

(** The synchronous part of [getProfile] touches nothing but the loading
    flag. *)
Lemma getProfile_run_view stored currentSession st :
  session (view (run (getProfile stored currentSession) st)) = session (view st)
  /\ profile (view (run (getProfile stored currentSession) st))
     = profile (view st)
  /\ alerts (run (getProfile stored currentSession) st) = alerts st
  /\ router_calls (run (getProfile stored currentSession) st) = router_calls st
  /\ subscribed (run (getProfile stored currentSession) st) = subscribed st.
Proof.
  unfold getProfile.
  destruct (user_id (or_else currentSession stored)); observe; auto.
Qed.

(** ** The auth-state-change handler *)

(** C5: a session-changed event stores the new session, null or not, and a
    null session clears username, website and avatarUrl whatever they
    were. *)
Theorem auth_state_change_stores_session st newSession :
  subscribed st = true ->
  exists st1,
    step st (AuthStateChange newSession) = Some st1 /\
    session (view st1) = newSession /\
    (newSession = None ->
     username (view st1) = "" /\ website (view st1) = ""
     /\ avatarUrl (view st1) = "").
Proof.
  intros Hsub. cbn. rewrite Hsub. eexists. split; [reflexivity|].
  unfold onAuthStateChange.
  destruct newSession as [[[u|] tok]|]; cbn [has_user user seq act skip run].
  - destruct (getProfile_run_view None
                (Some {| user := Some u; access_token := tok |})
                (perform (setSession
                   (Some {| user := Some u; access_token := tok |})) st))
      as (Hs & _).
    split; [|discriminate].
    unfold call_async, skip. cbn [run]. rewrite Hs. reflexivity.
  - split; [reflexivity|discriminate].
  - cbn. auto.
Qed.

Lemma auth_state_change_stores_session_witness :
  profile (view signed_in) = ("a", "b", "c") /\
  exists st1,
    step signed_in (AuthStateChange None) = Some st1 /\
    session (view st1) = None /\
    profile (view st1) = ("", "", "").
Proof.
  split; [reflexivity|].
  destruct (auth_state_change_stores_session signed_in None eq_refl)
    as (st1 & Hstep & Hs & Hp).
  destruct (Hp eq_refl) as (Hu & Hw & Ha).
  exists st1. split; [exact Hstep|]. split; [exact Hs|].
  unfold profile. rewrite Hu, Hw, Ha. reflexivity.
Defined.

(** What the handler does for a non-null session, by the user id it
    carries. *)
Lemma onAuthStateChange_some st s :
  run (onAuthStateChange (Some s)) st
  = run (if has_user (Some s) then getProfile None (Some s) else skip)
        (perform (setSession (Some s)) st).
Proof.
  unfold onAuthStateChange. destruct (has_user (Some s)); reflexivity.
Qed.

Lemma user_id_has_user s uid :
  user_id (Some s) = Some uid -> has_user (Some s) = true.
Proof. destruct s as [[u|] tok]; cbn; [reflexivity|discriminate]. Qed.

Lemma getProfile_run_query stored currentSession uid st :
  user_id (or_else currentSession stored) = Some uid ->
  exists t,
    suspension (getProfile stored currentSession) = Some t /\
    request t = profiles_select uid /\
    run (getProfile stored currentSession) st
    = suspend t (perform (setIsLoading true) st).
Proof.
  intros E. unfold getProfile. rewrite E. cbn. eexists.
  split; [reflexivity|]. split; reflexivity.
Qed.

Lemma getProfile_run_no_user stored currentSession st :
  user_id (or_else currentSession stored) = None ->
  run (getProfile stored currentSession) st
  = perform (setIsLoading false) (perform (setIsLoading true) st).
Proof. intros E. unfold getProfile. rewrite E. reflexivity. Qed.

(** C4: a session-changed event carrying a session whose user id is [uid]
    (a non-empty string) issues one profile query for [uid]; when that
    query comes back with a row and no error, in whatever state the provider
    is by then, username, website and avatarUrl become the row's username,
    website and avatar_url. *)
Theorem auth_state_change_fetches_profile st s uid :
  subscribed st = true ->
  user_id (Some s) = Some uid ->
  exists st1 t,
    step st (AuthStateChange (Some s)) = Some st1 /\
    profile_queries st1 = profile_queries st ++ [uid] /\
    pending st1 = pending st ++ [t] /\
    request t = profiles_select uid /\
    forall st2 n reply row,
      nth_error (pending st2) n = Some t ->
      error reply = None ->
      data reply = Some row ->
      exists st3,
        step st2 (Settle n (profile_settled (Fulfilled reply))) = Some st3 /\
        username (view st3) = row_username row /\
        website (view st3) = row_website row /\
        avatarUrl (view st3) = avatar_url row.
Proof.
  intros Hsub Huid.
  destruct (getProfile_run_query None (Some s) uid
              (perform (setSession (Some s)) st) Huid) as (t & Ht & Hreq & Hrun).
  exists (suspend t (perform (setIsLoading true)
                       (perform (setSession (Some s)) st))), t.
  split.
  { unfold step.
    rewrite Hsub, onAuthStateChange_some, (user_id_has_user _ _ Huid), Hrun.
    reflexivity. }
  split; [observe; rewrite Hreq; reflexivity|].
  split; [reflexivity|]. split; [exact Hreq|].
  intros st2 n reply row Hn He Hd.
  assert (Htask : task_of (getProfile None (Some s)) t)
    by (exists []; rewrite suspended_after_nil; exact Ht).
  destruct (getProfile_row _ _ _ _ _ _ _ Htask Hn He Hd)
    as (st3 & Hstep & Hu & Hw & Ha & _).
  exists st3. auto.
Qed.

Lemma auth_state_change_fetches_profile_witness :
  exists st3,
    steps signed_out
      [AuthStateChange (Some alice);
       Settle 0 (profile_settled (Fulfilled (found alice_row)))] = Some st3 /\
    profile_queries st3 = ["user-a"] /\
    profile (view st3) = ("a", "b", "c").
Proof.
  destruct (auth_state_change_fetches_profile signed_out alice "user-a"
              eq_refl eq_refl)
    as (st1 & t & Hstep & Hq & Hp & _ & Hrow).
  destruct (Hrow st1 0%nat (found alice_row) alice_row) as (st3 & H3 & Hu & Hw & Ha);
    [rewrite Hp; reflexivity | reflexivity | reflexivity |].
  exists st3. cbn [steps]. rewrite Hstep, H3.
  split; [reflexivity|].
  unfold profile. rewrite Hu, Hw, Ha.
  split; [|reflexivity].
  vm_compute in Hstep. injection Hstep as <-. vm_compute in H3.
  injection H3 as <-. reflexivity.
Defined.

(** C10: a session-changed event carrying a non-null session writes none of
    username, website, avatarUrl: at the end of the handler the previous
    values stand next to the new session, and they stay until the profile
    query issued for the new session comes back with a row, which overwrites
    them. *)
Theorem auth_state_change_keeps_profile st s :
  subscribed st = true ->
  exists st1,
    step st (AuthStateChange (Some s)) = Some st1 /\
    session (view st1) = Some s /\
    profile (view st1) = profile (view st) /\
    (exists added,
        history st1 = history st ++ added /\
        existsb writes_profile added = false) /\
    (forall uid, user_id (Some s) = Some uid ->
       exists t,
         pending st1 = pending st ++ [t] /\
         request t = profiles_select uid /\
         forall st2 n reply row,
           nth_error (pending st2) n = Some t ->
           error reply = None ->
           data reply = Some row ->
           exists st3,
             step st2 (Settle n (profile_settled (Fulfilled reply)))
             = Some st3 /\
             profile (view st3)
             = (row_username row, row_website row, avatar_url row)).
Proof.
  intros Hsub. unfold step. rewrite Hsub, onAuthStateChange_some.
  eexists. split; [reflexivity|].
  destruct (user_id (Some s)) as [uid|] eqn:Huid.
  - rewrite (user_id_has_user _ _ Huid).
    destruct (getProfile_run_query None (Some s) uid
                (perform (setSession (Some s)) st) Huid)
      as (t & Ht & Hreq & Hrun).
    rewrite Hrun.
    split; [reflexivity|]. split; [reflexivity|]. split.
    + exists [Did (setSession (Some s)); Did (setIsLoading true);
              Asked (request t)].
      split; [cbn; rewrite <- !app_assoc; reflexivity|reflexivity].
    + intros uid' Hu. injection Hu as <-. exists t.
      split; [reflexivity|]. split; [exact Hreq|].
      intros st2 n reply row Hn He Hd.
      assert (Htask : task_of (getProfile None (Some s)) t)
        by (exists []; rewrite suspended_after_nil; exact Ht).
      destruct (getProfile_row _ _ _ _ _ _ _ Htask Hn He Hd)
        as (st3 & Hstep & Hu & Hw & Ha & _).
      exists st3. unfold profile. rewrite Hu, Hw, Ha. auto.
  - destruct (has_user (Some s)).
    + rewrite (getProfile_run_no_user None (Some s) _ Huid).
      split; [reflexivity|]. split; [reflexivity|]. split; [|discriminate].
      exists [Did (setSession (Some s)); Did (setIsLoading true);
              Did (setIsLoading false)].
      split; [cbn; rewrite <- !app_assoc; reflexivity|reflexivity].
    + split; [reflexivity|]. split; [reflexivity|]. split; [|discriminate].
      exists [Did (setSession (Some s))]. split; reflexivity.
Qed.

Lemma auth_state_change_keeps_profile_witness :
  session (view signed_in) = Some alice /\
  exists st1 st3,
    step signed_in (AuthStateChange (Some bob)) = Some st1 /\
    session (view st1) = Some bob /\
    profile (view st1) = ("a", "b", "c") /\
    step st1 (Settle 0 (profile_settled (Fulfilled (found bob_row))))
    = Some st3 /\
    profile (view st3) = ("b", "https://b.example", "b.png").
Proof.
  split; [reflexivity|].
  destruct (auth_state_change_keeps_profile signed_in bob eq_refl)
    as (st1 & Hstep & Hs & Hp & _ & Hq).
  destruct (Hq "user-b" eq_refl) as (t & Hpend & _ & Hrow).
  destruct (Hrow st1 0%nat (found bob_row) bob_row) as (st3 & H3 & Hp3);
    [rewrite Hpend; reflexivity | reflexivity | reflexivity |].
  exists st1, st3.
  split; [exact Hstep|]. split; [exact Hs|].
  split; [rewrite Hp; reflexivity|]. split; [exact H3|exact Hp3].
Defined.

(** ** [getProfile] *)

(** C6: when the profile query of a fetch-profile call comes back with
    status 406 and no data, username, website and avatarUrl stay as they were
    and no alert is shown. *)
Theorem getProfile_not_found stored currentSession t st n reply :
  task_of (getProfile stored currentSession) t ->
  nth_error (pending st) n = Some t ->
  status reply = 406%Z ->
  data reply = None ->
  exists st',
    step st (Settle n (profile_settled (Fulfilled reply))) = Some st' /\
    profile (view st') = profile (view st) /\
    alerts st' = alerts st.
Proof.
  intros Ht Hn Hs Hd. getProfile_task Ht.
  cbn. rewrite Hn. unfold resume. cbn.
  destruct reply as [d e s]; cbn in *; subst.
  destruct e; eexists; (split; [reflexivity|]); observe; auto.
Qed.

Lemma getProfile_not_found_witness :
  exists st',
    step refreshing_alice (Settle 0 (profile_settled (Fulfilled not_found)))
    = Some st' /\
    profile (view st') = ("a", "b", "c") /\
    alerts st' = [].
Proof.
  destruct (getProfile_not_found (Some alice) None
              (task_at refreshing_alice 0)
              refreshing_alice 0%nat not_found)
    as (st' & Hstep & Hp & Ha);
    [exists []; reflexivity | reflexivity | reflexivity | reflexivity |].
  exists st'. split; [exact Hstep|]. split; [rewrite Hp|rewrite Ha]; reflexivity.
Defined.

(** C7, what the code does: when the profile query of a fetch-profile call
    comes back with an error and a status other than 406, username, website
    and avatarUrl stay as they were, and the error is thrown to the catch
    clause, which shows an alert carrying its message only when the error is
    an instance of [Error]; an error that is not is lost there without any
    alert. *)
Theorem getProfile_query_error stored currentSession t st n reply e :
  task_of (getProfile stored currentSession) t ->
  nth_error (pending st) n = Some t ->
  error reply = Some e ->
  status reply <> 406%Z ->
  exists st',
    step st (Settle n (profile_settled (Fulfilled reply))) = Some st' /\
    profile (view st') = profile (view st) /\
    alerts st'
    = alerts st ++ match e with
                   | ErrorInstance m => [(m, None)]
                   | NotAnError _ => []
                   end.
Proof.
  intros Ht Hn He Hs. getProfile_task Ht.
  cbn. rewrite Hn. unfold resume. cbn.
  destruct reply as [d e' s]; cbn in *; subst.
  apply Z.eqb_neq in Hs. rewrite Hs.
  destruct e; eexists; (split; [reflexivity|]); observe; auto.
Qed.

Lemma getProfile_query_error_witness :
  (exists st',
      step fetching_alice (Settle 0 (profile_settled (Fulfilled plain_error)))
      = Some st' /\
      profile (view st') = ("", "", "") /\
      alerts st' = []) /\
  (exists st',
      step refreshing_alice
        (Settle 0 (profile_settled (Fulfilled server_error)))
      = Some st' /\
      profile (view st') = ("a", "b", "c") /\
      alerts st' = [("permission denied for table profiles", None)]).
Proof.
  split.
  - destruct (getProfile_query_error None (Some alice)
                (task_at fetching_alice 0) fetching_alice 0%nat plain_error
                (NotAnError "permission denied for table profiles"))
      as (st' & Hstep & Hp & Ha);
      [exists []; reflexivity | reflexivity | reflexivity | discriminate |].
    exists st'. split; [exact Hstep|].
    split; [rewrite Hp|rewrite Ha]; reflexivity.
  - destruct (getProfile_query_error (Some alice) None
                (task_at refreshing_alice 0) refreshing_alice 0%nat
                server_error
                (ErrorInstance "permission denied for table profiles"))
      as (st' & Hstep & Hp & Ha);
      [exists []; reflexivity | reflexivity | reflexivity | discriminate |].
    exists st'. split; [exact Hstep|].
    split; [rewrite Hp|rewrite Ha]; reflexivity.
Defined.

(** C8, as the code has it: a fetch-profile call for which neither the
    argument nor the stored session has a user id issues no query and leaves
    session, username, website and avatarUrl alone, the loading flag ending
    false; and every fetch-profile call sets the loading flag to true first
    and to false last, on every way out: the early return, and after the
    query a row, a not-found reply, an error reply or a rejection. *)
Theorem getProfile_loading_flag stored currentSession st :
  (user_id currentSession = None -> user_id stored = None ->
   pending (run (getProfile stored currentSession) st) = pending st /\
   profile_queries (run (getProfile stored currentSession) st)
   = profile_queries st /\
   view (run (getProfile stored currentSession) st)
   = update (setIsLoading false) (view st) /\
   history (run (getProfile stored currentSession) st)
   = history st ++ [Did (setIsLoading true); Did (setIsLoading false)]) /\
  (exists rest,
      history (run (getProfile stored currentSession) st)
      = history st ++ Did (setIsLoading true) :: rest) /\
  ((pending (run (getProfile stored currentSession) st) = pending st /\
    isLoading (view (run (getProfile stored currentSession) st)) = false /\
    exists rest,
      history (run (getProfile stored currentSession) st)
      = history st ++ rest ++ [Did (setIsLoading false)])
   \/
   (exists t,
       pending (run (getProfile stored currentSession) st) = pending st ++ [t] /\
       isLoading (view (run (getProfile stored currentSession) st)) = true /\
       forall st2 n x,
         nth_error (pending st2) n = Some t ->
         exists st3 rest,
           step st2 (Settle n (profile_settled x)) = Some st3 /\
           isLoading (view st3) = false /\
           pending st3 = remove_nth n (pending st2) /\
           history st3 = history st2 ++ rest ++ [Did (setIsLoading false)])).
Proof.
  split; [|split].
  - intros Hc Hs.
    assert (E : user_id (or_else currentSession stored) = None)
      by (destruct currentSession; assumption).
    rewrite (getProfile_run_no_user _ _ _ E).
    repeat split; observe; reflexivity.
  - destruct (user_id (or_else currentSession stored)) as [uid|] eqn:E.
    + destruct (getProfile_run_query _ _ uid st E) as (t & _ & _ & Hrun).
      rewrite Hrun. eexists. cbn. rewrite <- app_assoc. reflexivity.
    + rewrite (getProfile_run_no_user _ _ _ E).
      eexists. cbn. rewrite <- app_assoc. reflexivity.
  - destruct (user_id (or_else currentSession stored)) as [uid|] eqn:E.
    + right. unfold getProfile. rewrite E. cbn. eexists.
      split; [reflexivity|]. split; [reflexivity|].
      intros st2 n x Hn. cbn. rewrite Hn. unfold resume. cbn.
      destruct x as [[d e s]|e]; cbn;
        [destruct e as [e|]; [destruct (s =? 406)%Z|]; try destruct d|];
        try destruct e; cbn;
        eexists; eexists; (split; [reflexivity|]);
        (split; [reflexivity|]); (split; [reflexivity|]);
        (eapply perform_last; cbn; rewrite <- ?app_assoc;
         first [reflexivity | symmetry; apply app_nil_r]).
    + left. rewrite (getProfile_run_no_user _ _ _ E). cbn.
      split; [reflexivity|]. split; [reflexivity|].
      exists [Did (setIsLoading true)]. rewrite <- app_assoc. reflexivity.
Qed.

Lemma getProfile_loading_flag_witness :
  (pending (run (getProfile None None) signed_out) = pending signed_out /\
   profile_queries (run (getProfile None None) signed_out)
   = profile_queries signed_out /\
   view (run (getProfile None None) signed_out)
   = update (setIsLoading false) (view signed_out) /\
   history (run (getProfile None None) signed_out)
   = history signed_out ++ [Did (setIsLoading true); Did (setIsLoading false)])
  /\
  exists st3,
    step refreshing_alice
      (Settle 0 (profile_settled (Rejected (NotAnError "offline"))))
    = Some st3 /\
    isLoading (view st3) = false.
Proof.
  split.
  - destruct (getProfile_loading_flag None None signed_out) as (H & _).
    apply H; reflexivity.
  - destruct (getProfile_loading_flag (Some alice) None signed_in)
      as (_ & _ & [(H & _)|(t & Hp & _ & H)]).
    + vm_compute in H. discriminate H.
    + destruct (H refreshing_alice 0%nat (Rejected (NotAnError "offline")))
        as (st3 & rest & Hstep & Hl & _).
      * change (pending refreshing_alice)
          with (pending (run (getProfile (Some alice) None) signed_in)).
        rewrite Hp. reflexivity.
      * exists st3. split; assumption.
Defined.

(** C8 as stated fails: a fetch-profile call with no user id in sight, made
    while the provider is loading, leaves the loading flag changed from true
    to false. *)
Lemma getProfile_loading_flag_counterexample :
  user_id (session (view mounting)) = None /\
  isLoading (view mounting) = true /\
  exists st',
    step mounting RefreshProfile = Some st' /\
    pending st' = pending mounting /\
    isLoading (view st') = false.
Proof.
  split; [reflexivity|]. split; [reflexivity|].
  eexists. split; [reflexivity|]. split; reflexivity.
Qed.

(** ** [signOut] *)

(** C1, as the code has it: when the backend sign-out succeeds, the run of
    sign-out that receives the reply ends with session null, username,
    website and avatarUrl empty, the loading flag false, and exactly one
    router call, to the sign-in path with empty params.  That call is
    [router.navigate]; no [router.replace] is made. *)
Theorem signOut_success t st n :
  task_of signOut t ->
  nth_error (pending st) n = Some t ->
  request t = auth_signOut ->
  exists st',
    step st (Settle n (signOut_settled (Fulfilled {| signout_error := None |})))
    = Some st' /\
    session (view st') = None /\
    profile (view st') = ("", "", "") /\
    isLoading (view st') = false /\
    router_calls st' = router_calls st ++ [(navigate, sign_in_href)] /\
    alerts st' = alerts st.
Proof.
  intros Ht Hn Hr. signOut_task Ht; cbn in Hr; try discriminate Hr;
    cbn; rewrite Hn; unfold resume; cbn;
    (eexists; split; [reflexivity|]); observe; auto 10.
Qed.

(** C2: a sign-out leaves session, username, website and avatarUrl alone up
    to the reply of the backend; when that reply carries an error, the alert
    "Sign Out Error" with the error's message is shown, no router call is
    made, session and profile fields keep their values, and the loading flag
    is set to false. *)
Theorem signOut_backend_error :
  (forall st,
      session (view (run signOut st)) = session (view st) /\
      profile (view (run signOut st)) = profile (view st)) /\
  (forall t st n a st',
      task_of signOut t ->
      nth_error (pending st) n = Some t ->
      request t <> auth_signOut ->
      step st (Settle n a) = Some st' ->
      session (view st') = session (view st) /\
      profile (view st') = profile (view st) /\
      router_calls st' = router_calls st) /\
  (forall t st n e,
      task_of signOut t ->
      nth_error (pending st) n = Some t ->
      request t = auth_signOut ->
      exists st',
        step st (Settle n (signOut_settled
                             (Fulfilled {| signout_error := Some e |})))
        = Some st' /\
        alerts st' = alerts st ++ [("Sign Out Error", Some (auth_message e))] /\
        router_calls st' = router_calls st /\
        session (view st') = session (view st) /\
        profile (view st') = profile (view st) /\
        isLoading (view st') = false).
Proof.
  split; [|split].
  - intros st. split; reflexivity.
  - intros t st n a st' Ht Hn Hr Hstep. cbn in Hstep. rewrite Hn in Hstep.
    unfold resume in Hstep.
    signOut_task Ht; cbn in Hr; try (exfalso; apply Hr; reflexivity);
      destruct a as [x|x|x|x|x]; cbn in Hstep; try discriminate Hstep;
      destruct x as [?|[?|?]]; cbn in Hstep;
      try match type of Hstep with
          | context [authKeys ?k] => destruct (authKeys k); cbn in Hstep
          end;
      injection Hstep as <-; observe; auto.
  - intros t st n e Ht Hn Hr. signOut_task Ht; cbn in Hr; try discriminate Hr;
      cbn; rewrite Hn; unfold resume; cbn;
      (eexists; split; [reflexivity|]); observe; auto 10.
Qed.

Lemma signOut_success_witness :
  exists st',
    step signing_out
      (Settle 0 (signOut_settled (Fulfilled {| signout_error := None |})))
    = Some st' /\
    session (view st') = None /\
    profile (view st') = ("", "", "") /\
    isLoading (view st') = false /\
    router_calls st' = [(navigate, sign_in_href)] /\
    alerts st' = [].
Proof.
  apply (signOut_success (task_at signing_out 0) signing_out 0%nat).
  - exists [keys_settled (Fulfilled ["supabase.auth.token"; "theme"]);
            removal_settled (Fulfilled tt)].
    reflexivity.
  - reflexivity.
  - reflexivity.
Defined.

Lemma signOut_backend_error_witness :
  (session (view (run_from signed_in
                    [SignOut;
                     Settle 0 (keys_settled (Rejected (ErrorInstance "disk")))]))
   = Some alice) /\
  exists st',
    step signing_out
      (Settle 0 (signOut_settled
                   (Fulfilled
                      {| signout_error :=
                           Some {| auth_message := "Network request failed" |}
                      |})))
    = Some st' /\
    alerts st' = [("Sign Out Error", Some "Network request failed")] /\
    router_calls st' = [] /\
    session (view st') = Some alice /\
    profile (view st') = ("a", "b", "c") /\
    isLoading (view st') = false.
Proof.
  destruct signOut_backend_error as (_ & Hkeep & Herr). split.
  - destruct (Hkeep (task_at (run_from signed_in [SignOut]) 0)
                (run_from signed_in [SignOut]) 0%nat
                (keys_settled (Rejected (ErrorInstance "disk")))
                (run_from signed_in
                   [SignOut;
                    Settle 0 (keys_settled (Rejected (ErrorInstance "disk")))]))
      as (Hs & _);
      [exists []; reflexivity | reflexivity | discriminate | reflexivity |].
    rewrite Hs. reflexivity.
  - apply (Herr (task_at signing_out 0) signing_out 0%nat
             {| auth_message := "Network request failed" |}).
    + exists [keys_settled (Fulfilled ["supabase.auth.token"; "theme"]);
              removal_settled (Fulfilled tt)].
      reflexivity.
    + reflexivity.
    + reflexivity.
Defined.

(** ** The two catch clauses *)

(** C9: in fetch-profile an alert is shown only when the value caught is an
    instance of [Error] (the alert carries its message); a value that is not
    is swallowed without any alert.  In sign-out a rejection with such a
    value, at any of its awaits, shows the alert "Sign Out Error" reading
    "An unknown error occurred". *)
Theorem catch_clauses :
  (forall stored currentSession t st n x,
      task_of (getProfile stored currentSession) t ->
      nth_error (pending st) n = Some t ->
      exists st',
        step st (Settle n (profile_settled x)) = Some st' /\
        (alerts st' = alerts st \/
         exists m, raises x (ErrorInstance m) /\
                   alerts st' = alerts st ++ [(m, None)]) /\
        (forall r, raises x (NotAnError r) -> alerts st' = alerts st)) /\
  (forall t st n r,
      task_of signOut t ->
      nth_error (pending st) n = Some t ->
      exists st',
        step st (Settle n (rejection (request t) (NotAnError r))) = Some st' /\
        alerts st'
        = alerts st ++ [("Sign Out Error", Some "An unknown error occurred")]).
Proof.
  split.
  - intros stored currentSession t st n x Ht Hn. getProfile_task Ht.
    cbn. rewrite Hn. unfold resume. cbn.
    destruct x as [[d e s]|e]; cbn.
    + destruct e as [e|]; [destruct (s =? 406)%Z eqn:Es|]; try destruct d;
        try destruct e; cbn;
        (eexists; split; [reflexivity|]); observe;
        (split;
         [ first [ left; reflexivity
                 | right; eexists; split; [split; [reflexivity|]|reflexivity];
                   apply Z.eqb_neq; exact Es ]
         | intros r [Hr Hs]; first [ reflexivity | discriminate Hr
                                   | apply Z.eqb_neq in Hs; congruence ] ]).
    + destruct e; cbn; (eexists; split; [reflexivity|]); observe;
        (split;
         [ first [ left; reflexivity
                 | right; eexists; split; reflexivity ]
         | intros r Hr; first [ reflexivity | discriminate Hr ] ]).
  - intros t st n r Ht Hn. signOut_task Ht;
      cbn; rewrite Hn; unfold resume; cbn;
      (eexists; split; [reflexivity|]); observe; reflexivity.
Qed.

Lemma catch_clauses_witness :
  (exists st',
      step refreshing_alice
        (Settle 0 (profile_settled (Rejected (NotAnError "offline"))))
      = Some st' /\
      alerts st' = []) /\
  (exists st',
      step signing_out (Settle 0 (signOut_settled (Rejected (NotAnError "offline"))))
      = Some st' /\
      alerts st' = [("Sign Out Error", Some "An unknown error occurred")]).
Proof.
  destruct catch_clauses as (Hget & Hout). split.
  - destruct (Hget (Some alice) None (task_at refreshing_alice 0)
                refreshing_alice 0%nat (Rejected (NotAnError "offline")))
      as (st' & Hstep & _ & Hno);
      [exists []; reflexivity | reflexivity |].
    exists st'. split; [exact Hstep|].
    rewrite (Hno "offline" eq_refl). reflexivity.
  - apply (Hout (task_at signing_out 0) signing_out 0%nat "offline").
    + exists [keys_settled (Fulfilled ["supabase.auth.token"; "theme"]);
              removal_settled (Fulfilled tt)].
      reflexivity.
    + reflexivity.
Defined.

(** ** The session/profile invariant *)

Lemma task_of_first p t : suspension p = Some t -> task_of p t.
Proof. intros H. exists []. rewrite suspended_after_nil. exact H. Qed.

Lemma suspended_after_snoc p answers t a x :
  suspended_after p answers = Some t ->
  answer_for (request t) a = Some x ->
  suspended_after p (answers ++ [a]) = suspension (continuation t x).
Proof.
  revert p. induction answers as [|b answers IH]; intros p H Ha.
  - rewrite suspended_after_nil in H. cbn. rewrite H, Ha.
    destruct (suspension (continuation t x)); reflexivity.
  - cbn in *. destruct (suspension p) as [t0|]; [|discriminate].
    destruct (answer_for (request t0) b) as [y|]; [|discriminate].
    apply IH; assumption.
Qed.

Lemma answer_for_of r x : answer_for r (answer_of r x) = Some x.
Proof. destruct r; reflexivity. Qed.

Lemma task_of_next p t (Ht : task_of p t) x t' :
  suspension (continuation t x) = Some t' ->
  task_of p t'.
Proof.
  destruct Ht as [answers H]. intros Hs.
  exists (answers ++ [answer_of (request t) x]).
  rewrite (suspended_after_snoc _ _ _ _ _ H (answer_for_of _ x)). exact Hs.
Qed.

Lemma onInitialSession_run s st :
  run (onInitialSession s) st
  = perform (setIsLoading false)
      (if has_user s
       then run (getProfile None s) (perform (setSession s) st)
       else st).
Proof. unfold onInitialSession. destruct (has_user s); reflexivity. Qed.

Lemma session_task_inv t :
  task_of (await auth_getSession onInitialSession) t -> t = session_task.
Proof.
  intros [answers H]. destruct answers as [|a answers].
  - rewrite suspended_after_nil in H. unfold await in H.
    cbn [suspension] in H. injection H as <-. reflexivity.
  - exfalso. explore H;
      unfold onInitialSession in H; destruct (has_user _); explore H.
Qed.

Lemma resume_summary t a st st' :
  known_task t ->
  resume t a st = Some st' ->
  exists l,
    pending st' = pending st ++ l /\
    Forall known_task l /\
    ((session (view st') = session (view st) /\
      existsb is_profile_query l = false /\
      (profile (view st') = profile (view st) \/ is_profile_query t = true))
     \/
     (session (view st') = None /\ profile_empty (view st') = true /\ l = [] /\
      a = signOut_settled (Fulfilled {| signout_error := None |}))
     \/
     (exists s, a = session_settled (Fulfilled (Some s)) /\
                session (view st') = Some s /\
                profile (view st') = profile (view st) /\
                (existsb is_profile_query l = true ->
                 has_user_id (Some s) = true))).
Proof.
  intros [(stored & cur & Ht)|[Ht|Ht]] Hres; unfold resume in Hres.
  - getProfile_task Ht.
    destruct a as [x|x|x|x|x]; cbn in Hres; try discriminate Hres.
    injection Hres as <-. exists []. rewrite app_nil_r.
    split; [|split; [constructor|left; split; [|split; [reflexivity|right; reflexivity]]]].
    + destruct x as [[d [e|] s]|e]; cbn;
        try destruct (s =? 406)%Z; try destruct d; try destruct e; reflexivity.
    + destruct x as [[d [e|] s]|e]; cbn;
        try destruct (s =? 406)%Z; try destruct d; try destruct e; reflexivity.
  - pose proof Ht as Hk. signOut_task Ht;
      destruct a as [x|x|x|x|x]; cbn in Hres; try discriminate Hres;
      destruct x as [?|[?|?]]; cbn in Hres.
    all: try match type of Hres with
             | context [authKeys ?k] =>
                 let E := fresh "Hk'" in destruct (authKeys k) eqn:E; cbn in Hres
             end.
    all: try match goal with
             | r : SignOutReply |- _ => destruct r as [[?|]]; cbn in Hres
             end.
    all: injection Hres as <-; cbn.
    all: try (exists []; rewrite app_nil_r; split; [reflexivity|];
              split; [constructor|]; cbn;
              first [ left; split; [reflexivity|]; split; [reflexivity|];
                      left; reflexivity
                    | right; left; repeat split; reflexivity ]).
    all: eexists; split; [reflexivity|]; split;
      [ constructor; [|constructor]; right; left;
        match goal with
        | v : list string |- _ =>
            refine (task_of_next _ _ Hk (Fulfilled v) _ _);
            cbn; rewrite ?Hk'; reflexivity
        | u : unit |- _ =>
            refine (task_of_next _ _ Hk (Fulfilled u) _ _); reflexivity
        end
      | left; split; [reflexivity|]; split; [reflexivity|]; left; reflexivity ].
  - rewrite (session_task_inv _ Ht) in *. unfold session_task in *.
    destruct a as [x|x|x|x|x]; cbn [answer_for request continuation] in Hres;
      try discriminate Hres.
    destruct x as [s|e]; cbv beta iota in Hres.
    + rewrite onInitialSession_run in Hres.
      apply (f_equal (fun o => match o with Some x => x | None => st end)) in Hres.
      subst st'.
      destruct s as [s|]; [destruct (has_user (Some s)) eqn:Hu|].
      * destruct (user_id (Some s)) as [uid|] eqn:Hid.
        -- destruct (getProfile_run_query None (Some s) uid
                       (perform (setSession (Some s)) st) Hid)
             as (t' & Hsus & Hreq & Hrun).
           exists [t']. rewrite Hrun. cbn.
           split; [reflexivity|]. split.
           { constructor; [|constructor]. left. exists None, (Some s).
             apply task_of_first. exact Hsus. }
           right. right. exists s. repeat split.
           unfold has_user_id. rewrite Hid. reflexivity.
        -- exists [].
           rewrite (getProfile_run_no_user None (Some s) _ Hid). cbn.
           rewrite app_nil_r. split; [reflexivity|]. split; [constructor|].
           right. right. exists s. repeat split. discriminate.
      * exists []. cbn. rewrite app_nil_r. split; [reflexivity|].
        split; [constructor|]. left. repeat split. left. reflexivity.
      * exists []. cbn. rewrite app_nil_r. split; [reflexivity|].
        split; [constructor|]. left. repeat split. left. reflexivity.
    + injection Hres as <-.
      exists []. cbn. rewrite app_nil_r. split; [reflexivity|].
      split; [constructor|]. left. repeat split. left. reflexivity.
Qed.

Lemma existsb_remove_nth {A} (f : A -> bool) n l :
  existsb f (remove_nth n l) = true -> existsb f l = true.
Proof.
  revert n. induction l as [|x l IH]; intros [|n]; cbn; auto.
  - intros H. rewrite H. apply orb_true_r.
  - intros H. apply orb_true_iff in H. apply orb_true_iff.
    destruct H as [H|H]; [left; exact H|right; eapply IH; exact H].
Qed.

Lemma Forall_remove_nth {A} (P : A -> Prop) n l :
  Forall P l -> Forall P (remove_nth n l).
Proof.
  intros H. revert n. induction H as [|x l Hx Hl IH]; intros [|n]; cbn;
    auto using Forall.
Qed.

Lemma existsb_nth_error {A} (f : A -> bool) l n x :
  nth_error l n = Some x -> f x = true -> existsb f l = true.
Proof.
  intros Hn Hx. apply existsb_exists. exists x.
  split; [eapply nth_error_In; exact Hn|exact Hx].
Qed.

Lemma Some_eq {A} (x y : A) : Some x = Some y -> x = y.
Proof. congruence. Qed.

Lemma step_summary st e st' :
  tasks_known st ->
  step st e = Some st' ->
  tasks_known st' /\
  (keeps_session st st' \/ loses_session st e st' \/ stores_session st e st').
Proof.
  intros Hk Hstep. destruct e as [| |[s|]| | |n a]; cbn [step] in Hstep.
  - (* Mount *)
    apply Some_eq in Hstep; subst st'. split.
    + unfold tasks_known. cbn. apply Forall_app. split; [exact Hk|].
      constructor; [|constructor]. right. right. apply task_of_first.
      reflexivity.
    + left. unfold keeps_session, fetching. cbn. rewrite existsb_app. cbn.
      rewrite orb_false_r. split; [reflexivity|]. split; [discriminate|auto].
  - (* Unmount *)
    apply Some_eq in Hstep; subst st'. split; [exact Hk|].
    left. unfold keeps_session. cbn. auto.
  - (* AuthStateChange (Some s) *)
    destruct (subscribed st); [|discriminate]. apply Some_eq in Hstep; subst st'.
    rewrite onAuthStateChange_some.
    assert (Hst : stores_session st (AuthStateChange (Some s))
                    (run (if has_user (Some s)
                          then getProfile None (Some s) else skip)
                         (perform (setSession (Some s)) st))).
    { exists s. split; [|auto].
      destruct (has_user (Some s)); [|reflexivity].
      apply (getProfile_run_view None (Some s)). }
    split; [|right; right; exact Hst].
    destruct (has_user (Some s)); [|exact Hk].
    destruct (user_id (Some s)) as [uid|] eqn:Hid.
    + destruct (getProfile_run_query None (Some s) uid
                  (perform (setSession (Some s)) st) Hid)
        as (t & Hsus & _ & Hrun).
      rewrite Hrun. unfold tasks_known. cbn. apply Forall_app.
      split; [exact Hk|]. constructor; [|constructor].
      left. exists None, (Some s). apply task_of_first. exact Hsus.
    + rewrite (getProfile_run_no_user None (Some s) _ Hid). exact Hk.
  - (* AuthStateChange None *)
    destruct (subscribed st); [|discriminate]. apply Some_eq in Hstep; subst st'.
    split; [exact Hk|]. right. left. unfold loses_session. cbn.
    repeat split; auto. intros H. apply negb_true_iff in H. exact H.
  - (* RefreshProfile *)
    apply Some_eq in Hstep; subst st'. unfold refreshProfile.
    destruct (user_id (session (view st))) as [uid|] eqn:Hid.
    + destruct (getProfile_run_query (session (view st)) None uid st Hid)
        as (t & Hsus & _ & Hrun).
      rewrite Hrun. split.
      * unfold tasks_known. cbn. apply Forall_app.
        split; [exact Hk|]. constructor; [|constructor].
        left. exists (session (view st)), None. apply task_of_first.
        exact Hsus.
      * left. unfold keeps_session. cbn. split; [reflexivity|].
        split; [auto|]. intros _. right. unfold has_user_id.
        rewrite Hid. reflexivity.
    + rewrite (getProfile_run_no_user (session (view st)) None _ Hid).
      split; [exact Hk|]. left. unfold keeps_session. cbn. auto.
  - (* SignOut *)
    apply Some_eq in Hstep; subst st'. split.
    + unfold tasks_known. cbn. apply Forall_app. split; [exact Hk|].
      constructor; [|constructor]. right. left. apply task_of_first.
      reflexivity.
    + left. unfold keeps_session, fetching. cbn. rewrite existsb_app. cbn.
      rewrite orb_false_r. auto.
  - (* Settle *)
    destruct (nth_error (pending st) n) as [t|] eqn:Hn; [|discriminate].
    assert (Ht : known_task t).
    { unfold tasks_known in Hk. rewrite Forall_forall in Hk. apply Hk.
      eapply nth_error_In. exact Hn. }
    destruct (resume_summary _ _ _ _ Ht Hstep) as (l & Hp & Hl & Hcases).
    cbn in Hp. split.
    + unfold tasks_known. rewrite Hp. apply Forall_app.
      split; [apply Forall_remove_nth; exact Hk|exact Hl].
    + assert (Hf : forall b, existsb is_profile_query l = b ->
                             fetching st' = true ->
                             fetching st = true \/ b = true).
      { intros b Hb H. unfold fetching in H. rewrite Hp, existsb_app, Hb in H.
        apply orb_true_iff in H. destruct H as [H|H]; [left|right; exact H].
        eapply existsb_remove_nth. exact H. }
      destruct Hcases as [(Hs & Hq & Hprof)|[(Hs & He & Hnil & Ha)|
                                             (s & Ha & Hs & Hprof & Hq)]].
      * left. split; [exact Hs|]. split.
        -- intros H. destruct Hprof as [Hprof|Hprof].
           ++ left. unfold profile_empty in *. unfold profile in Hprof. cbn in Hprof.
              injection Hprof as <- <- <-. exact H.
           ++ right. eapply existsb_nth_error; eassumption.
        -- intros H. destruct (Hf _ Hq H) as [H'|H']; [left; exact H'|discriminate].
      * right. left. split; [exact Hs|]. split; [exact He|]. split.
        -- intros H. subst l. destruct (Hf false eq_refl H); [assumption|discriminate].
        -- subst a. cbn. intros H. apply negb_true_iff in H. exact H.
      * right. right. exists s. split; [exact Hs|]. subst a. cbn. auto.
Qed.





(** ** Further properties of the provider *)

Lemma run_history p st : history (run p st) = history st ++ trace p.
Proof.
  revert st. induction p as [c|a k IH|r k IH|child IHc k IHk]; intros st; cbn.
  - symmetry. apply app_nil_r.
  - rewrite IH. cbn. rewrite <- app_assoc. reflexivity.
  - reflexivity.
  - rewrite IHk, IHc. rewrite <- app_assoc. reflexivity.
Qed.

(** X4: the promises of fetch-profile, sign-out and refreshProfile are never
    rejected: every failure inside them ends in their catch clause. *)
Theorem operations_never_reject :
  (forall stored currentSession, never_rejects (getProfile stored currentSession)) /\
  never_rejects signOut /\
  (forall rendered, never_rejects (refreshProfile rendered)).
Proof.
  assert (G : forall stored currentSession,
             never_rejects (getProfile stored currentSession)).
  { intros stored cur. unfold getProfile.
    destruct (user_id (or_else cur stored)) as [uid|]; cbn; [|exact I].
    intros [[d [e|] s]|e]; cbn;
      try destruct (s =? 406)%Z; try destruct d; try destruct e; cbn; exact I. }
  split; [exact G|]. split; [|intros v; apply G].
  unfold signOut. cbn. intros [keys|e]; cbn.
  - destruct (authKeys keys); cbn.
    + intros [[[e|]]|e]; cbn; try destruct e; exact I.
    + intros [u|e]; cbn.
      * intros [[[e|]]|e]; cbn; try destruct e; exact I.
      * destruct e; exact I.
  - destruct e; exact I.
Qed.

(** Everything a settled profile query can do, whatever the reply. *)
Lemma getProfile_settled stored currentSession t st n x :
  task_of (getProfile stored currentSession) t ->
  nth_error (pending st) n = Some t ->
  exists st',
    step st (Settle n (profile_settled x)) = Some st' /\
    pending st' = remove_nth n (pending st) /\
    session (view st') = session (view st) /\
    subscribed st' = subscribed st /\
    isLoading (view st') = false /\
    router_calls st' = router_calls st /\
    profile_queries st' = profile_queries st /\
    (forall reply, x = Fulfilled reply ->
       error reply = None \/ status reply = 406%Z ->
       alerts st' = alerts st /\
       profile (view st')
       = match data reply with
         | Some row => (row_username row, row_website row, avatar_url row)
         | None => profile (view st)
         end).
Proof.
  intros Ht Hn. getProfile_task Ht.
  cbn. rewrite Hn. unfold resume. cbn.
  destruct x as [[d [e|] s]|e]; cbn;
    try destruct (s =? 406)%Z eqn:Es; try destruct d; try destruct e; cbn;
    (eexists; split; [reflexivity|]); observe;
    do 6 (split; [reflexivity|]);
    intros reply Hx; inversion Hx; subst; cbn;
    intros [H|H]; try discriminate H;
    try (apply Z.eqb_neq in Es; contradiction);
    split; reflexivity.
Qed.

(** X2: a reply of the profile query with no error, or with status 406,
    shows no alert and sets the loading flag to false; a row in it is written
    to username, website and avatarUrl, and without a row the three fields
    stay as they were. *)
Theorem getProfile_reply_without_error stored currentSession t st n reply :
  task_of (getProfile stored currentSession) t ->
  nth_error (pending st) n = Some t ->
  error reply = None \/ status reply = 406%Z ->
  exists st',
    step st (Settle n (profile_settled (Fulfilled reply))) = Some st' /\
    alerts st' = alerts st /\
    isLoading (view st') = false /\
    profile (view st')
    = match data reply with
      | Some row => (row_username row, row_website row, avatar_url row)
      | None => profile (view st)
      end.
Proof.
  intros Ht Hn He.
  destruct (getProfile_settled _ _ _ _ _ (Fulfilled reply) Ht Hn)
    as (st' & Hstep & _ & _ & _ & Hl & _ & _ & H).
  destruct (H reply eq_refl He) as (Ha & Hp).
  exists st'. auto.
Qed.

Lemma getProfile_reply_without_error_witness :
  exists st',
    step refreshing_alice
      (Settle 0 (profile_settled (Fulfilled not_found_with_row))) = Some st' /\
    alerts st' = [] /\
    profile (view st') = ("b", "https://b.example", "b.png").
Proof.
  destruct (getProfile_reply_without_error (Some alice) None
              (task_at refreshing_alice 0) refreshing_alice 0%nat
              not_found_with_row)
    as (st' & Hstep & Ha & _ & Hp);
    [exists []; reflexivity | reflexivity | right; reflexivity |].
  exists st'. rewrite Ha. auto.
Defined.

(** X3: whatever the profile query settles with, the fetch-profile call
    is over after it: it issues no further request, and it never touches the
    session, the subscription or the router. *)
Theorem getProfile_settles_once stored currentSession t st n x :
  task_of (getProfile stored currentSession) t ->
  nth_error (pending st) n = Some t ->
  exists st',
    step st (Settle n (profile_settled x)) = Some st' /\
    pending st' = remove_nth n (pending st) /\
    session (view st') = session (view st) /\
    subscribed st' = subscribed st /\
    router_calls st' = router_calls st /\
    profile_queries st' = profile_queries st.
Proof.
  intros Ht Hn.
  destruct (getProfile_settled _ _ _ _ _ x Ht Hn)
    as (st' & Hstep & Hp & Hs & Hsub & _ & Hr & Hq & _).
  exists st'. auto 10.
Qed.

Lemma getProfile_settles_once_witness :
  exists st',
    step refreshing_alice
      (Settle 0 (profile_settled (Fulfilled server_error))) = Some st' /\
    pending st' = [] /\
    session (view st') = Some alice /\
    router_calls st' = [] /\
    profile_queries st' = ["user-a"; "user-a"].
Proof.
  destruct (getProfile_settles_once (Some alice) None
              (task_at refreshing_alice 0) refreshing_alice 0%nat
              (Fulfilled server_error))
    as (st' & Hstep & Hp & Hs & _ & Hr & Hq);
    [exists []; reflexivity | reflexivity |].
  exists st'. rewrite Hp, Hs, Hr, Hq. auto.
Defined.

(** X1: the profile query of a fetch-profile call is for the user id of the
    argument when an argument is given, whether or not it has one; the stored
    session is consulted only when there is no argument. *)
Theorem getProfile_argument_first stored currentSession st :
  profile_queries (run (getProfile stored currentSession) st)
  = profile_queries st
    ++ match currentSession with
       | Some s => match user_id (Some s) with Some uid => [uid] | None => [] end
       | None => match user_id stored with Some uid => [uid] | None => [] end
       end.
Proof.
  assert (H : match currentSession with
              | Some s => match user_id (Some s) with
                          | Some uid => [uid] | None => []
                          end
              | None => match user_id stored with
                        | Some uid => [uid] | None => []
                        end
              end
              = match user_id (or_else currentSession stored) with
                | Some uid => [uid] | None => []
                end) by (destruct currentSession; reflexivity).
  rewrite H. clear H.
  destruct (user_id (or_else currentSession stored)) as [uid|] eqn:E.
  - destruct (getProfile_run_query _ _ uid st E) as (t & _ & Hreq & Hrun).
    rewrite Hrun. observe. rewrite Hreq. reflexivity.
  - rewrite (getProfile_run_no_user _ _ _ E). observe. reflexivity.
Qed.

Lemma user_id_nonempty s uid : user_id s = Some uid -> uid <> "".
Proof.
  destruct s as [[[u|] tok]|]; cbn; try discriminate.
  destruct (id u =? "")%string eqn:E; [discriminate|].
  intros H. injection H as <-. apply String.eqb_neq. exact E.
Qed.

(** X8: when the initial session query returns a session with a user id,
    the session is stored, the profile query for that user is issued, and the
    loading flag is already false at the end of that run, while the profile
    query is still pending. *)
Theorem initial_session_stored st n s uid :
  nth_error (pending st) n = Some session_task ->
  user_id (Some s) = Some uid ->
  exists st' t,
    step st (Settle n (session_settled (Fulfilled (Some s)))) = Some st' /\
    session (view st') = Some s /\
    isLoading (view st') = false /\
    profile (view st') = profile (view st) /\
    profile_queries st' = profile_queries st ++ [uid] /\
    pending st' = remove_nth n (pending st) ++ [t] /\
    task_of (getProfile None (Some s)) t /\
    request t = profiles_select uid.
Proof.
  intros Hn Huid. cbn [step]. rewrite Hn. unfold resume, session_task.
  cbn [answer_for request continuation].
  rewrite onInitialSession_run, (user_id_has_user _ _ Huid).
  destruct (getProfile_run_query None (Some s) uid
              (perform (setSession (Some s)) (drop_task n st)) Huid)
    as (t & Hsus & Hreq & Hrun).
  rewrite Hrun. eexists. exists t. split; [reflexivity|].
  observe. rewrite Hreq. cbn.
  repeat split; auto using task_of_first.
Qed.

Lemma initial_session_stored_witness :
  exists st',
    step mounting (Settle 0 (session_settled (Fulfilled (Some alice))))
    = Some st' /\
    session (view st') = Some alice /\
    isLoading (view st') = false /\
    profile_queries st' = ["user-a"] /\
    length (pending st') = 1%nat.
Proof.
  destruct (initial_session_stored mounting 0 alice "user-a" eq_refl eq_refl)
    as (st' & t & Hstep & Hs & Hl & _ & Hq & Hp & _).
  exists st'. rewrite Hp, Hq. auto.
Defined.

(** X9: when the initial session query returns no session, or one without
    user, nothing is stored and nothing is asked: only the loading flag is set
    to false. *)
Theorem initial_session_absent st n s :
  nth_error (pending st) n = Some session_task ->
  has_user s = false ->
  exists st',
    step st (Settle n (session_settled (Fulfilled s))) = Some st' /\
    view st' = update (setIsLoading false) (view st) /\
    pending st' = remove_nth n (pending st) /\
    history st' = history st ++ [Did (setIsLoading false)].
Proof.
  intros Hn Hu. cbn [step]. rewrite Hn. unfold resume, session_task.
  cbn [answer_for request continuation].
  rewrite onInitialSession_run, Hu.
  eexists. split; [reflexivity|]. repeat split.
Qed.

Lemma initial_session_absent_witness :
  exists st',
    step mounting (Settle 0 (session_settled (Fulfilled None))) = Some st' /\
    view st' = {| session := None; isLoading := false;
                  username := ""; website := ""; avatarUrl := "" |} /\
    pending st' = [].
Proof.
  destruct (initial_session_absent mounting 0 None eq_refl eq_refl)
    as (st' & Hstep & Hv & Hp & _).
  exists st'. rewrite Hv, Hp. auto.
Defined.

(** X10: when the initial session query is rejected, the provider changes
    nothing: the loading flag is not reset and no alert is shown; the
    rejection is left unhandled. *)
Theorem initial_session_rejected st n e :
  nth_error (pending st) n = Some session_task ->
  step st (Settle n (session_settled (Rejected e))) = Some (drop_task n st) /\
  ~ never_rejects (await auth_getSession onInitialSession).
Proof.
  intros Hn. split.
  - cbn [step]. rewrite Hn. reflexivity.
  - intros H. exact (H (Rejected e)).
Qed.

Lemma initial_session_rejected_witness :
  exists st',
    step mounting
      (Settle 0 (session_settled (Rejected (ErrorInstance "offline"))))
    = Some st' /\
    isLoading (view st') = true /\ alerts st' = [] /\ pending st' = [].
Proof.
  destruct (initial_session_rejected mounting 0 (ErrorInstance "offline")
              eq_refl) as (Hstep & _).
  eexists. split; [exact Hstep|]. auto.
Defined.

(** X11: mounting a fresh provider, with the backend returning a session
    with a user id and then the row of that user, ends with that session, the
    row in the three profile fields, the loading flag false, nothing pending
    and no alert. *)
Theorem initialize_loads_profile s uid reply row :
  user_id (Some s) = Some uid ->
  error reply = None ->
  data reply = Some row ->
  exists st',
    steps initial_sys
      [Mount; Settle 0 (session_settled (Fulfilled (Some s)));
       Settle 0 (profile_settled (Fulfilled reply))] = Some st' /\
    view st' = {| session := Some s; isLoading := false;
                  username := row_username row; website := row_website row;
                  avatarUrl := avatar_url row |} /\
    pending st' = [] /\
    alerts st' = [] /\
    profile_queries st' = [uid] /\
    subscribed st' = true.
Proof.
  intros Huid He Hd.
  destruct s as [[[i]|] tok]; cbn in Huid; try discriminate Huid.
  destruct (i =? "")%string eqn:E; [discriminate Huid|].
  injection Huid as <-.
  destruct reply as [d e status]; cbn in He, Hd; subst.
  eexists. split.
  - cbn. rewrite E. cbn. reflexivity.
  - repeat split.
Qed.

Lemma initialize_loads_profile_witness :
  exists st',
    steps initial_sys
      [Mount; Settle 0 (session_settled (Fulfilled (Some alice)));
       Settle 0 (profile_settled (Fulfilled (found alice_row)))] = Some st' /\
    view st' = {| session := Some alice; isLoading := false;
                  username := "a"; website := "b"; avatarUrl := "c" |}.
Proof.
  destruct (initialize_loads_profile alice "user-a" (found alice_row) alice_row
              eq_refl eq_refl eq_refl) as (st' & Hsteps & Hv & _).
  exists st'. split; assumption.
Defined.

(** One notification with a non-null session, step by step. *)
Lemma auth_state_change_run st s :
  subscribed st = true ->
  exists st1,
    step st (AuthStateChange (Some s)) = Some st1 /\
    subscribed st1 = true /\
    session (view st1) = Some s /\
    profile (view st1) = profile (view st) /\
    match user_id (Some s) with
    | Some uid =>
        exists t, task_of (getProfile None (Some s)) t /\
                  pending st1 = pending st ++ [t] /\
                  profile_queries st1 = profile_queries st ++ [uid]
    | None =>
        pending st1 = pending st /\ profile_queries st1 = profile_queries st
    end.
Proof.
  intros Hsub. unfold step. rewrite Hsub, onAuthStateChange_some.
  eexists. split; [reflexivity|].
  destruct (user_id (Some s)) as [uid|] eqn:Huid.
  - rewrite (user_id_has_user _ _ Huid).
    destruct (getProfile_run_query None (Some s) uid
                (perform (setSession (Some s)) st) Huid)
      as (t & Ht & Hreq & Hrun).
    rewrite Hrun. observe. rewrite Hreq. cbn.
    repeat split; auto. exists t. auto using task_of_first.
  - destruct (has_user (Some s)).
    + rewrite (getProfile_run_no_user None (Some s) _ Huid). observe. auto.
    + observe. rewrite ?app_nil_r. auto.
Qed.

Lemma nth_error_last2 {A} (l : list A) x y :
  nth_error ((l ++ [x]) ++ [y]) (S (length l)) = Some y.
Proof. induction l; cbn; auto. Qed.

Lemma remove_nth_last2 {A} (l : list A) x y :
  remove_nth (S (length l)) ((l ++ [x]) ++ [y]) = l ++ [x].
Proof. induction l as [|z l IH]; cbn; [reflexivity|]. cbn in IH. rewrite IH. reflexivity. Qed.

Lemma nth_error_last {A} (l : list A) x :
  nth_error (l ++ [x]) (length l) = Some x.
Proof. induction l; cbn; auto. Qed.

Lemma remove_nth_last {A} (l : list A) x :
  remove_nth (length l) (l ++ [x]) = l.
Proof. induction l as [|z l IH]; cbn; [reflexivity|]. rewrite IH. reflexivity. Qed.

(** X14: a fetch that has been superseded is not cancelled: when the
    session changes from one user to another and the first user's query
    returns last, the profile fields hold the first user's row next to the
    second user's session. *)
Theorem superseded_fetch_overwrites
        st a b uid_a uid_b reply_a reply_b row_a row_b :
  subscribed st = true ->
  user_id (Some a) = Some uid_a ->
  user_id (Some b) = Some uid_b ->
  error reply_a = None -> data reply_a = Some row_a ->
  error reply_b = None -> data reply_b = Some row_b ->
  exists st',
    steps st
      [AuthStateChange (Some a);
       AuthStateChange (Some b);
       Settle (S (length (pending st))) (profile_settled (Fulfilled reply_b));
       Settle (length (pending st)) (profile_settled (Fulfilled reply_a))]
    = Some st' /\
    session (view st') = Some b /\
    profile (view st')
    = (row_username row_a, row_website row_a, avatar_url row_a) /\
    profile_queries st' = profile_queries st ++ [uid_a; uid_b] /\
    pending st' = pending st.
Proof.
  intros Hsub Ha Hb Hea Hda Heb Hdb.
  destruct (auth_state_change_run st a Hsub)
    as (st1 & H1 & Hsub1 & Hs1 & _ & Hq1).
  rewrite Ha in Hq1. destruct Hq1 as (ta & Hta & Hp1 & Hq1).
  destruct (auth_state_change_run st1 b Hsub1)
    as (st2 & H2 & _ & Hs2 & _ & Hq2).
  rewrite Hb in Hq2. destruct Hq2 as (tb & Htb & Hp2 & Hq2).
  destruct (getProfile_settled None (Some b) tb st2
              (S (length (pending st))) (Fulfilled reply_b) Htb)
    as (st3 & H3 & Hp3 & Hs3 & _ & _ & _ & Hq3 & _).
  { rewrite Hp2, Hp1. apply nth_error_last2. }
  rewrite Hp2, Hp1, remove_nth_last2 in Hp3.
  destruct (getProfile_settled None (Some a) ta st3
              (length (pending st)) (Fulfilled reply_a) Hta)
    as (st4 & H4 & Hp4 & Hs4 & _ & _ & _ & Hq4 & Hrow).
  { rewrite Hp3. apply nth_error_last. }
  rewrite Hp3, remove_nth_last in Hp4.
  destruct (Hrow reply_a eq_refl (or_introl Hea)) as (_ & Hprof).
  rewrite Hda in Hprof.
  exists st4. cbn [steps]. rewrite H1, H2, H3, H4.
  split; [reflexivity|].
  split; [congruence|]. split; [exact Hprof|]. split; [|exact Hp4].
  rewrite Hq4, Hq3, Hq2, Hq1, <- app_assoc. reflexivity.
Qed.

Lemma superseded_fetch_overwrites_witness :
  exists st',
    steps signed_out
      [AuthStateChange (Some alice); AuthStateChange (Some bob);
       Settle 1 (profile_settled (Fulfilled (found bob_row)));
       Settle 0 (profile_settled (Fulfilled (found alice_row)))] = Some st' /\
    session (view st') = Some bob /\
    profile (view st') = ("a", "b", "c").
Proof.
  destruct (superseded_fetch_overwrites signed_out alice bob "user-a" "user-b"
              (found alice_row) (found bob_row) alice_row bob_row
              eq_refl eq_refl eq_refl eq_refl eq_refl eq_refl eq_refl)
    as (st' & Hsteps & Hs & Hp & _).
  exists st'. split; [exact Hsteps|]. split; assumption.
Defined.

(** X15: refreshProfile queries the profile of the stored session's user
    with the loading flag set, leaving session and profile alone until the
    query returns; a returned row replaces the three fields and the loading
    flag is false again. *)
Theorem refreshProfile_reloads st uid :
  user_id (session (view st)) = Some uid ->
  exists st1 t,
    step st RefreshProfile = Some st1 /\
    profile_queries st1 = profile_queries st ++ [uid] /\
    isLoading (view st1) = true /\
    session (view st1) = session (view st) /\
    profile (view st1) = profile (view st) /\
    pending st1 = pending st ++ [t] /\
    forall st2 n reply row,
      nth_error (pending st2) n = Some t ->
      error reply = None ->
      data reply = Some row ->
      exists st3,
        step st2 (Settle n (profile_settled (Fulfilled reply))) = Some st3 /\
        profile (view st3)
        = (row_username row, row_website row, avatar_url row) /\
        isLoading (view st3) = false.
Proof.
  intros Huid. cbn [step]. unfold refreshProfile.
  destruct (getProfile_run_query (session (view st)) None uid st Huid)
    as (t & Hsus & Hreq & Hrun).
  rewrite Hrun. eexists. exists t. split; [reflexivity|].
  observe. rewrite Hreq. cbn. do 5 (split; [reflexivity|]).
  intros st2 n reply row Hn He Hd.
  destruct (getProfile_settled (session (view st)) None t st2 n
              (Fulfilled reply) (task_of_first _ _ Hsus) Hn)
    as (st3 & H3 & _ & _ & _ & Hl & _ & _ & Hrow).
  destruct (Hrow reply eq_refl (or_introl He)) as (_ & Hp).
  rewrite Hd in Hp. exists st3. auto.
Qed.

Lemma refreshProfile_reloads_witness :
  exists st1 st3,
    step signed_in RefreshProfile = Some st1 /\
    profile_queries st1 = ["user-a"; "user-a"] /\
    isLoading (view st1) = true /\
    step st1 (Settle 0 (profile_settled (Fulfilled (found bob_row))))
    = Some st3 /\
    profile (view st3) = ("b", "https://b.example", "b.png").
Proof.
  destruct (refreshProfile_reloads signed_in "user-a" eq_refl)
    as (st1 & t & Hstep & Hq & Hl & _ & _ & Hp & Hrow).
  destruct (Hrow st1 0%nat (found bob_row) bob_row) as (st3 & H3 & Hp3 & _);
    [rewrite Hp; reflexivity | reflexivity | reflexivity |].
  exists st1, st3. rewrite Hq. auto.
Defined.

Lemma last_cons {A} (x : A) l d : last (x :: l) d = last l x.
Proof.
  revert x d. induction l as [|y l IH]; intros x d; [reflexivity|].
  change (last (x :: y :: l) d) with (last (y :: l) d).
  rewrite (IH y d), (IH y x). reflexivity.
Qed.

(** X13: notifications are not deduplicated: a sequence of
    session-changed events with non-null sessions issues one profile query per
    session that has a user id, in order, leaves all of them pending, stores
    the last session and writes no profile field. *)
Theorem notifications_not_deduplicated sessions st :
  subscribed st = true ->
  exists st',
    steps st (map (fun s => AuthStateChange (Some s)) sessions) = Some st' /\
    profile_queries st' = profile_queries st ++ user_ids sessions /\
    length (pending st') = (length (pending st) + length (user_ids sessions))%nat /\
    session (view st') = last (map Some sessions) (session (view st)) /\
    profile (view st') = profile (view st).
Proof.
  revert st. induction sessions as [|s sessions IH]; intros st Hsub.
  - exists st. cbn. rewrite app_nil_r, Nat.add_0_r. auto.
  - destruct (auth_state_change_run st s Hsub)
      as (st1 & H1 & Hsub1 & Hs1 & Hp1 & Hq1).
    destruct (IH st1 Hsub1) as (st' & Hsteps & Hq & Hlen & Hs & Hp).
    exists st'. cbn [map steps]. rewrite H1.
    split; [exact Hsteps|].
    assert (Hlast : last (Some s :: map Some sessions) (session (view st))
                    = last (map Some sessions) (session (view st1))).
    { rewrite Hs1. apply last_cons. }
    rewrite Hlast, Hq, Hlen, Hp, Hp1. unfold user_ids. cbn [flat_map].
    fold (user_ids sessions).
    destruct (user_id (Some s)) as [uid|].
    + destruct Hq1 as (t & _ & Hpend & Hq1). rewrite Hq1, Hpend, length_app.
      rewrite <- app_assoc. cbn. repeat split; auto. lia.
    + destruct Hq1 as (Hpend & Hq1). rewrite Hq1, Hpend. cbn. auto.
Qed.

Lemma notifications_not_deduplicated_witness :
  exists st',
    steps signed_out
      [AuthStateChange (Some alice); AuthStateChange (Some bob);
       AuthStateChange (Some alice)] = Some st' /\
    profile_queries st' = ["user-a"; "user-b"; "user-a"] /\
    length (pending st') = 3%nat /\
    session (view st') = Some alice.
Proof.
  destruct (notifications_not_deduplicated three_sessions signed_out eq_refl)
    as (st' & Hsteps & Hq & Hl & Hs & _).
  exists st'. split; [exact Hsteps|]. rewrite Hq, Hl, Hs. auto.
Defined.

Lemma startsWith_spec key p :
  startsWith key p = true <-> exists rest, key = (p ++ rest)%string.
Proof.
  unfold startsWith. revert key.
  induction p as [|a p IH]; intros key.
  - split; [intros _; exists key; reflexivity|].
    intros _. destruct key; reflexivity.
  - destruct key as [|b key]; cbn.
    + split; [discriminate|]. intros [rest H]. discriminate H.
    + destruct (Ascii.ascii_dec a b) as [->|Hab].
      * rewrite IH. split; intros [rest H]; exists rest.
        -- rewrite H. reflexivity.
        -- injection H as H. exact H.
      * split; [discriminate|]. intros [rest H]. injection H as H1 H2.
        congruence.
Qed.

Lemma includes_spec key sub :
  sub <> "" ->
  includes key sub = true <-> exists before rest, key = (before ++ sub ++ rest)%string.
Proof.
  intros Hsub. unfold includes.
  assert (P : forall k, String.prefix sub k = true
                        <-> exists rest, k = (sub ++ rest)%string)
    by (intros k; apply (startsWith_spec k sub)).
  induction key as [|c key IH].
  - destruct sub as [|a sub]; [contradiction Hsub; reflexivity|]. cbn.
    split; [discriminate|]. intros (before & rest & H).
    destruct before; discriminate H.
  - cbn [String.index].
    destruct (String.prefix sub (String c key)) eqn:Hp.
    + split; [|reflexivity]. intros _. apply P in Hp. destruct Hp as [rest H].
      exists "", rest. exact H.
    + destruct (String.index 0 sub key) as [m|] eqn:Hi.
      * split; [|reflexivity]. intros _.
        destruct IH as [IH _]. destruct (IH eq_refl) as (before & rest & H).
        exists (String c before), rest. cbn. rewrite H. reflexivity.
      * split; [discriminate|]. intros (before & rest & H).
        destruct before as [|b before]; cbn in H.
        -- assert (Hp' : String.prefix sub (String c key) = true)
             by (apply P; exists rest; exact H).
           congruence.
        -- injection H as _ H. destruct IH as [_ IH].
           assert (G : exists before rest, key = (before ++ sub ++ rest)%string)
             by (exists before, rest; exact H).
           specialize (IH G). discriminate IH.
Qed.

(** X5: the keys sign-out removes from storage are exactly the listed keys
    that begin with "supabase.auth" or contain "session". *)
Theorem authKeys_spec keys key :
  In key (authKeys keys) <->
  In key keys /\
  ((exists rest, key = ("supabase.auth" ++ rest)%string) \/
   (exists before rest, key = (before ++ "session" ++ rest)%string)).
Proof.
  unfold authKeys. rewrite filter_In, orb_true_iff.
  rewrite startsWith_spec, includes_spec by discriminate.
  reflexivity.
Qed.

Lemma authKeys_spec_witness :
  In "my-session-cache" (authKeys ["theme"; "my-session-cache"]) /\
  ~ In "theme" (authKeys ["theme"; "my-session-cache"]).
Proof.
  split.
  - apply authKeys_spec. split; [right; left; reflexivity|].
    right. exists "my-", "-cache". reflexivity.
  - intros H. apply authKeys_spec in H. destruct H as (_ & [[r H]|(b & r & H)]).
    + discriminate H.
    + vm_compute in H.
      repeat (destruct b as [|? b]; [discriminate H|injection H as _ H]);
        destruct b; discriminate H.
Defined.

(** X6: sign-out first sets the loading flag and lists the stored keys;
    once they are listed it asks for the removal of the selected keys, or,
    when none is selected, goes straight to the backend sign-out; a removal is
    never asked for an empty list, and the backend sign-out is called once the
    removal is done.  None of these runs touches the state cells. *)
Theorem signOut_request_order :
  (forall st,
      history (run signOut st)
      = history st ++ [Did (setIsLoading true); Asked AsyncStorage_getAllKeys]) /\
  (forall t st n keys,
      task_of signOut t ->
      nth_error (pending st) n = Some t ->
      request t = AsyncStorage_getAllKeys ->
      exists st',
        step st (Settle n (keys_settled (Fulfilled keys))) = Some st' /\
        view st' = view st /\
        history st'
        = history st
          ++ [Asked (match authKeys keys with
                     | [] => auth_signOut
                     | _ :: _ => AsyncStorage_multiRemove (authKeys keys)
                     end)]) /\
  (forall t st n keys,
      task_of signOut t ->
      nth_error (pending st) n = Some t ->
      request t = AsyncStorage_multiRemove keys ->
      keys <> [] /\
      exists st',
        step st (Settle n (removal_settled (Fulfilled tt))) = Some st' /\
        view st' = view st /\
        history st' = history st ++ [Asked auth_signOut]).
Proof.
  split; [|split].
  - intros st. unfold signOut. cbn. rewrite <- app_assoc. reflexivity.
  - intros t st n keys Ht Hn Hr.
    signOut_task Ht; cbn in Hr; try discriminate Hr.
    cbn. rewrite Hn. unfold resume. cbn.
    destruct (authKeys keys); cbn; eexists; split; reflexivity || auto.
  - intros t st n keys Ht Hn Hr.
    signOut_task Ht; cbn in Hr; try discriminate Hr.
    injection Hr as <-. split; [discriminate|].
    cbn. rewrite Hn. unfold resume. cbn. eexists. split; reflexivity || auto.
Qed.

Lemma signOut_request_order_witness :
  (exists st',
      step (run_from signed_in [SignOut])
        (Settle 0 (keys_settled (Fulfilled ["supabase.auth.token"; "theme"])))
      = Some st' /\
      profile_queries st' = ["user-a"] /\
      history st'
      = history (run_from signed_in [SignOut])
        ++ [Asked (AsyncStorage_multiRemove ["supabase.auth.token"])]) /\
  (exists st',
      step (run_from signed_in [SignOut])
        (Settle 0 (keys_settled (Fulfilled ["theme"])))
      = Some st' /\
      history st'
      = history (run_from signed_in [SignOut]) ++ [Asked auth_signOut]) /\
  (exists st',
      step (run_from signed_in
              [SignOut;
               Settle 0 (keys_settled
                           (Fulfilled ["supabase.auth.token"; "theme"]))])
        (Settle 0 (removal_settled (Fulfilled tt)))
      = Some st' /\
      history st' = history signing_out).
Proof.
  destruct signOut_request_order as (_ & Hkeys & Hremoval).
  split; [|split].
  - destruct (Hkeys (task_at (run_from signed_in [SignOut]) 0)
                (run_from signed_in [SignOut]) 0%nat
                ["supabase.auth.token"; "theme"])
      as (st' & Hstep & Hv & Hh);
      [exists []; reflexivity | reflexivity | reflexivity |].
    exists st'. split; [exact Hstep|]. split; [|exact Hh].
    unfold profile_queries. rewrite Hh. vm_compute. reflexivity.
  - destruct (Hkeys (task_at (run_from signed_in [SignOut]) 0)
                (run_from signed_in [SignOut]) 0%nat ["theme"])
      as (st' & Hstep & Hv & Hh);
      [exists []; reflexivity | reflexivity | reflexivity |].
    exists st'. split; [exact Hstep|exact Hh].
  - destruct (Hremoval
                (task_at (run_from signed_in
                            [SignOut;
                             Settle 0 (keys_settled
                                         (Fulfilled ["supabase.auth.token";
                                                     "theme"]))]) 0)
                (run_from signed_in
                   [SignOut;
                    Settle 0 (keys_settled
                                (Fulfilled ["supabase.auth.token"; "theme"]))])
                0%nat ["supabase.auth.token"])
      as (_ & st' & Hstep & Hv & Hh);
      [exists [keys_settled (Fulfilled ["supabase.auth.token"; "theme"])];
       reflexivity | reflexivity | reflexivity |].
    exists st'. split; [exact Hstep|]. rewrite Hh. vm_compute. reflexivity.
Defined.

(** X7: when any request of sign-out is rejected with an [Error], sign-out
    shows the alert "Sign Out Error" with its message, sets the loading flag
    to false and stops: no further request, no router call, session and
    profile as they were. *)
Theorem signOut_rejection_aborts t st n m :
  task_of signOut t ->
  nth_error (pending st) n = Some t ->
  exists st',
    step st (Settle n (rejection (request t) (ErrorInstance m))) = Some st' /\
    history st'
    = history st ++ [Did (Alert_alert "Sign Out Error" (Some m));
                     Did (setIsLoading false)] /\
    pending st' = remove_nth n (pending st) /\
    session (view st') = session (view st) /\
    profile (view st') = profile (view st).
Proof.
  intros Ht Hn. signOut_task Ht;
    cbn; rewrite Hn; unfold resume; cbn;
    (eexists; split; [reflexivity|]); cbn; rewrite <- ?app_assoc; auto.
Qed.

Lemma signOut_rejection_aborts_witness :
  exists st',
    step (run_from signed_in [SignOut])
      (Settle 0 (keys_settled (Rejected (ErrorInstance "disk")))) = Some st' /\
    alerts st' = [("Sign Out Error", Some "disk")] /\
    pending st' = [] /\
    session (view st') = Some alice.
Proof.
  destruct (signOut_rejection_aborts (task_at (run_from signed_in [SignOut]) 0)
              (run_from signed_in [SignOut]) 0%nat "disk")
    as (st' & Hstep & Hh & Hp & Hs & _);
    [exists []; reflexivity | reflexivity |].
  exists st'. split; [exact Hstep|]. unfold alerts.
  rewrite Hh, Hp, Hs. auto.
Defined.

Lemma run_subscribed p st :
  subscribed (run p st) = subscription_after (trace p) (subscribed st).
Proof.
  unfold subscription_after. revert st.
  induction p as [c|a k IH|r k IH|child IHc k IHk]; intros st; cbn.
  - reflexivity.
  - rewrite IH. cbn. destruct a; reflexivity.
  - reflexivity.
  - rewrite IHk, IHc, fold_left_app. reflexivity.
Qed.

Lemma operation_entries_keep_subscription l b :
  Forall operation_entry l -> subscription_after l b = b.
Proof.
  unfold subscription_after. intros H. revert b.
  induction H as [|e l He Hl IH]; intros b; cbn; [reflexivity|].
  rewrite IH. destruct e as [[]|[]]; cbn in He; tauto || reflexivity.
Qed.

Lemma getProfile_trace stored currentSession :
  Forall operation_entry (trace (getProfile stored currentSession)).
Proof.
  unfold getProfile.
  destruct (user_id (or_else currentSession stored)) as [uid|] eqn:E; cbn.
  - repeat constructor. cbn. eapply user_id_nonempty. exact E.
  - repeat constructor.
Qed.

Lemma onAuthStateChange_trace newSession :
  Forall operation_entry (trace (onAuthStateChange newSession)).
Proof.
  unfold onAuthStateChange. destruct newSession as [s|].
  - destruct (has_user (Some s)); unfold call_async, act, skip;
      cbn [seq trace app].
    + constructor; [exact I|]. rewrite app_nil_r. apply getProfile_trace.
    + repeat constructor.
  - cbn. repeat constructor.
Qed.

Lemma known_task_trace t a x :
  known_task t ->
  answer_for (request t) a = Some x ->
  Forall operation_entry (trace (continuation t x)).
Proof.
  intros [(stored & cur & Ht)|[Ht|Ht]] _.
  - getProfile_task Ht. cbn in x.
    destruct x as [[d [e|] s]|e]; cbn;
      try destruct (s =? 406)%Z; try destruct d; try destruct e; cbn;
      repeat constructor.
  - signOut_task Ht; cbn in x; destruct x as [?|[?|?]]; cbn;
      try match goal with
          | |- context [authKeys ?k] => destruct (authKeys k); cbn
          end;
      try match goal with
          | r : SignOutReply |- _ => destruct r as [[?|]]; cbn
          end;
      repeat constructor; cbn; auto; discriminate.
  - pose proof (session_task_inv _ Ht) as E. subst t.
    unfold session_task in *. cbn in x. cbn [continuation].
    destruct x as [s|e]; [|constructor].
    unfold onInitialSession.
    destruct (has_user s); unfold call_async, act, skip; cbn [seq trace app].
    + constructor; [exact I|]. apply Forall_app.
      split; [apply getProfile_trace|repeat constructor].
    + repeat constructor.
Qed.

(** What one step adds to the history. *)
Lemma step_history st e st' :
  tasks_known st ->
  step st e = Some st' ->
  exists added,
    history st' = history st ++ added /\
    subscribed st' = subscription_after added (subscribed st) /\
    match e with
    | Mount => added = trace authEffect
    | Unmount => added = [Did unsubscribe]
    | _ => Forall operation_entry added
    end.
Proof.
  intros Hk Hstep.
  destruct e as [| |newSession| | |n a]; cbn [step] in Hstep.
  - apply Some_eq in Hstep. subst st'. exists (trace authEffect).
    rewrite run_history, run_subscribed. auto.
  - apply Some_eq in Hstep. subst st'. exists [Did unsubscribe].
    rewrite run_history, run_subscribed. auto.
  - destruct (subscribed st) eqn:Hs; [|discriminate].
    apply Some_eq in Hstep. subst st'.
    exists (trace (onAuthStateChange newSession)).
    rewrite run_history, run_subscribed, Hs.
    auto using onAuthStateChange_trace.
  - apply Some_eq in Hstep. subst st'.
    exists (trace (refreshProfile (view st))).
    rewrite run_history, run_subscribed.
    unfold refreshProfile. auto using getProfile_trace.
  - apply Some_eq in Hstep. subst st'. exists (trace signOut).
    rewrite run_history, run_subscribed.
    repeat split. cbn. repeat constructor.
  - destruct (nth_error (pending st) n) as [t|] eqn:Hn; [|discriminate].
    assert (Ht : known_task t).
    { unfold tasks_known in Hk. rewrite Forall_forall in Hk. apply Hk.
      eapply nth_error_In. exact Hn. }
    unfold resume in Hstep.
    destruct (answer_for (request t) a) as [x|] eqn:Ha; [|discriminate].
    apply Some_eq in Hstep. subst st'.
    exists (trace (continuation t x)).
    rewrite run_history, run_subscribed.
    eauto using known_task_trace.
Qed.

Lemma steps_history es st0 st :
  tasks_known st0 ->
  Forall provider_entry (history st0) ->
  steps st0 es = Some st ->
  Forall provider_entry (history st) /\
  subscribed st = mounted_after es (subscribed st0).
Proof.
  revert st0. induction es as [|e es IH]; intros st0 Hk Hh H; cbn in H.
  - apply Some_eq in H. subst st. auto.
  - destruct (step st0 e) as [st1|] eqn:Hstep; [|discriminate].
    destruct (step_history _ _ _ Hk Hstep) as (added & Hadd & Hsub & He).
    assert (Hk1 : tasks_known st1) by apply (step_summary _ _ _ Hk Hstep).
    assert (Hh1 : Forall provider_entry (history st1)).
    { rewrite Hadd. apply Forall_app. split; [exact Hh|].
      destruct e; try (eapply Forall_impl; [|exact He]; intros; left; assumption);
        subst added; cbn;
        repeat (apply Forall_cons || apply Forall_nil);
        unfold provider_entry; cbn; auto 6. }
    destruct (IH st1 Hk1 Hh1 H) as (Hfin & Hs).
    split; [exact Hfin|]. rewrite Hs, Hsub.
    change (mounted_after (e :: es) (subscribed st0))
      with (mounted_after es (match e with
                              | Mount => true
                              | Unmount => false
                              | _ => subscribed st0
                              end)).
    f_equal.
    destruct e; try (apply operation_entries_keep_subscription; exact He);
      subst added; reflexivity.
Qed.

Lemma reachable_history st :
  reachable st -> Forall provider_entry (history st).
Proof.
  intros [es H].
  apply (steps_history es initial_sys st); [constructor|constructor|exact H].
Qed.

Lemma provider_entries_observed {A} (f : Entry -> list A) (P : A -> Prop) l :
  (forall e, provider_entry e -> Forall P (f e)) ->
  Forall provider_entry l ->
  Forall P (flat_map f l).
Proof.
  intros Hf H. induction H as [|e l He Hl IH]; cbn; [constructor|].
  apply Forall_app. split; [apply Hf; exact He|exact IH].
Qed.

(** X12: the subscription follows the mount effect and its cleanup and
    nothing else: a session-changed notification is handled exactly when the
    last of the two to run was the mount effect. *)
Theorem notifications_while_mounted es st newSession :
  steps initial_sys es = Some st ->
  subscribed st = mounted_after es false /\
  (step st (AuthStateChange newSession) = None <-> mounted_after es false = false).
Proof.
  intros H.
  destruct (steps_history es initial_sys st) as (_ & Hs);
    [constructor|constructor|exact H|].
  change (subscribed initial_sys) with false in Hs.
  split; [exact Hs|]. cbn [step]. rewrite <- Hs.
  destruct (subscribed st); split; congruence.
Qed.

Lemma notifications_while_mounted_witness :
  step (run_from initial_sys [Mount; Unmount]) (AuthStateChange (Some alice))
  = None /\
  subscribed (run_from initial_sys [Mount; Unmount; Mount]) = true.
Proof.
  split.
  - apply (notifications_while_mounted [Mount; Unmount]); reflexivity.
  - apply (notifications_while_mounted [Mount; Unmount; Mount] _ None).
    reflexivity.
Defined.

(** X16: in every reachable state, every router call made so far is
    [router.navigate] to the sign-in path with empty params. *)
Theorem only_navigation_is_sign_in st :
  reachable st ->
  Forall (fun call => call = (navigate, sign_in_href)) (router_calls st).
Proof.
  intros H. unfold router_calls.
  apply provider_entries_observed with (2 := reachable_history st H).
  intros [[]|[]] [He|[He|[He|He]]]; cbn in *;
    try discriminate He; try contradiction; try constructor.
  - destruct He as [-> ->]. reflexivity.
  - constructor.
Qed.

Lemma only_navigation_is_sign_in_witness :
  router_calls after_sign_out = [(navigate, sign_in_href)] /\
  Forall (fun call => call = (navigate, sign_in_href))
         (router_calls after_sign_out).
Proof.
  split; [vm_compute; reflexivity|].
  apply only_navigation_is_sign_in. exists sign_in_then_out. vm_compute. reflexivity.
Defined.

(** X17: in every reachable state, every profile query issued so far is for
    a non-empty user id. *)
Theorem queries_carry_user_id st :
  reachable st ->
  Forall (fun uid => uid <> "") (profile_queries st).
Proof.
  intros H. unfold profile_queries.
  apply provider_entries_observed with (2 := reachable_history st H).
  intros [[]|[]] [He|[He|[He|He]]]; cbn in *;
    try discriminate He; try contradiction; repeat constructor; assumption.
Qed.

Lemma queries_carry_user_id_witness :
  profile_queries after_sign_out = ["user-a"] /\
  Forall (fun uid => uid <> "") (profile_queries after_sign_out).
Proof.
  split; [vm_compute; reflexivity|].
  apply queries_carry_user_id. exists sign_in_then_out. vm_compute. reflexivity.
Defined.

(** X18: in every reachable state, every alert shown so far is either a
    one-argument alert (the catch clause of fetch-profile) or titled
    "Sign Out Error" (the catch clause of sign-out). *)
Theorem alerts_come_from_catch_clauses st :
  reachable st ->
  Forall (fun alert => snd alert = None \/ fst alert = "Sign Out Error")
         (alerts st).
Proof.
  intros H. unfold alerts.
  apply provider_entries_observed with (2 := reachable_history st H).
  intros [[]|[]] [He|[He|[He|He]]]; cbn in *;
    try discriminate He; try contradiction;
    first [ apply Forall_nil
          | apply Forall_cons; [exact He|apply Forall_nil] ].
Qed.

Lemma alerts_come_from_catch_clauses_witness :
  alerts (run_from initial_sys two_failures)
  = [("permission denied for table profiles", None);
     ("Sign Out Error", Some "disk")] /\
  Forall (fun alert => snd alert = None \/ fst alert = "Sign Out Error")
         (alerts (run_from initial_sys two_failures)).
Proof.
  split; [vm_compute; reflexivity|].
  apply alerts_come_from_catch_clauses. exists two_failures. vm_compute. reflexivity.
Defined.

(** ** The session/profile invariant, setter by setter *)



















